(** * eBay review exporter: the paginated fetch and the review transform

    A shallow embedding of [src/export_ebay_reviews.py]: the rating table,
    [fetch_all_feedback] and [build_ebay_reviews_export], followed by the
    properties of the two functions. *)

From Stdlib Require Import ZArith String Ascii List Lia.
From stdpp Require Import base decidable option list strings gmap.

Local Open Scope string_scope.
Local Open Scope list_scope.

(** ** Exceptions and results *)

(** The exceptions that can leave the two functions.  [SystemExit] carries
    its message; [ConnectionError] is [ebaysdk.exception.ConnectionError];
    [OtherError] stands for any exception of the client that is not a
    [ConnectionError]. *)
Inductive exn : Type :=
| SystemExit (msg : string)
| ConnectionError
| AttributeError
| TypeError
| ValueError
| OtherError (name : string).

(** A call either returns a value or raises. *)
Inductive res (A : Type) : Type :=
| Return (a : A)
| Raise (e : exn).
Arguments Return {A} a.
Arguments Raise {A} e.

(** The two [SystemExit]s raised by [build_ebay_reviews_export], under the
    names the specification gives them. *)
Definition EmptyInputError : exn :=
  SystemExit "No feedback rows supplied to build_ebay_reviews_export".
Definition NoMatchingRowsError : exn :=
  SystemExit "No seller feedback with comments after filtering".

(** ** Data model *)

(** The date and time that a Python [datetime] shows. *)
Record datetime : Type := mkdatetime {
  year : nat; month : nat; day : nat;
  hour : nat; minute : nat; second : nat
}.

(** A timestamp of a row, as [dateutil] returns it: the date and time it
    shows, and its zone [tzinfo] as an offset from UTC in seconds; a naive
    timestamp has the zone [None]. *)
Record timestamp : Type := mktimestamp {
  wall : datetime;
  tzinfo : option Z
}.

(** The dict built per feedback entry at lines 118-126.  [None] is Python's
    [None]. *)
Record RawFeedbackRow : Type := mkRow {
  comment_text : option string;
  comment_type : option string;
  comment_time : option timestamp;
  role : option string;
  item_id : string;
  item_title : option string;
  commenting_user : option string
}.

(** One line of the output table (lines 193-203). *)
Record ReviewExportRow : Type := mkExport {
  title : string;
  body : string;
  rating : Z;
  review_date : string;
  reviewer_name : string;
  reviewer_email : string;
  product_url : string;
  picture_urls : string;
  product_id : string;
  product_handle : string
}.

(** ** The rating table (lines 13-17) *)

Definition RATING_MAP : gmap string Z :=
  {[ "Positive" := 5%Z; "Neutral" := 3%Z; "Negative" := 1%Z ]}.

(** ** build_ebay_reviews_export (lines 141-205) *)

(** What the conversion of a column has met so far: a naive timestamp, a
    zone-aware timestamp, and the zone of the converted column. *)
Record parse_state : Type := mkParseState {
  found_naive : bool;
  found_tz : bool;
  tz_out : option Z
}.

(** One timestamp in the conversion of a column.  A zone-aware timestamp is
    kept when no naive timestamp came before it and its zone is the zone of
    the column, which the first zone-aware timestamp that is kept sets; a
    naive timestamp is kept when no zone-aware timestamp came before it.
    Any other timestamp is an error of the conversion, which
    [errors="coerce"] turns into [NaT]. *)
Definition process_datetime (st : parse_state) (t : timestamp)
  : parse_state * option timestamp :=
  match tzinfo t with
  | Some z =>
      let keep := negb (found_naive st)
                  && bool_decide (tz_out st = None ∨ tz_out st = Some z) in
      (mkParseState (found_naive st) true (if keep then Some z else tz_out st),
       if keep then Some t else None)
  | None =>
      (mkParseState true (found_tz st) (tz_out st),
       if found_tz st then None else Some t)
  end.

(** The conversion reads the column from its first cell to its last;
    [None] is [NaT] in the result. *)
Fixpoint array_to_datetime (st : parse_state) (column : list (option timestamp))
  : list (option timestamp) :=
  match column with
  | [] => []
  | None :: column => None :: array_to_datetime st column
  | Some t :: column =>
      let (st', cell) := process_datetime st t in
      cell :: array_to_datetime st' column
  end.

(** [pd.to_datetime(column, errors="coerce")] on a column of timestamps and
    [None] (line 166).  The conversion runs on the whole column: pandas
    does not mix naive timestamps, zone-aware timestamps and zones in one
    column of dates.  (For a column of more than 50 cells with many equal
    timestamps pandas converts the distinct timestamps and copies the
    results; that shortcut is not part of this definition.) *)
Definition to_datetime (column : list (option timestamp)) : list (option timestamp) :=
  array_to_datetime (mkParseState false false None) column.

(** [row["comment_time"] = t] *)
Definition set_comment_time (r : RawFeedbackRow) (t : option timestamp)
  : RawFeedbackRow :=
  {| comment_text := comment_text r;
     comment_type := comment_type r;
     comment_time := t;
     role := role r;
     item_id := item_id r;
     item_title := item_title r;
     commenting_user := commenting_user r |}.

(** Line 166: the column [comment_time] of the frame is replaced by its
    conversion, before any row is selected. *)
Definition coerce_comment_time (df : list RawFeedbackRow) : list RawFeedbackRow :=
  zip_with set_comment_time df (to_datetime (comment_time <$> df)).

(** The mask of lines 169-173. *)
Definition seller_with_comment (r : RawFeedbackRow) : Prop :=
  role r = Some "Seller" ∧ is_Some (comment_text r) ∧ is_Some (comment_type r).

#[global] Instance seller_with_comment_dec r : Decision (seller_with_comment r).
Proof. unfold seller_with_comment. apply _. Defined.

(** [df["comment_type"].map(RATING_MAP)] on one cell: [None] is [NaN]. *)
Definition map_rating (r : RawFeedbackRow) : option Z :=
  comment_type r ≫= (RATING_MAP !!.).

(** Lines 179-181: the rating column, and the rows whose rating is not
    [NaN]. *)
Definition rated (df : list RawFeedbackRow) : list (RawFeedbackRow * Z) :=
  omap (λ r, k ← map_rating r; Some (r, k)) df.

Definition digit (n : nat) : ascii := ascii_of_nat (48 + n mod 10).

(** [%d] and [%m]: two digits, zero padded. *)
Definition pad2 (n : nat) : string :=
  String (digit (n / 10)) (String (digit n) "").

(** [%Y]: the four digits of the year of a pandas timestamp. *)
Definition pad4 (n : nat) : string :=
  String (digit (n / 1000)) (String (digit (n / 100)) (pad2 n)).

(** [strftime("%d/%m/%Y")] on a timestamp. *)
Definition strftime_dmy (t : datetime) : string :=
  pad2 (day t) +:+ "/" +:+ pad2 (month t) +:+ "/" +:+ pad4 (year t).

(** [s.rstrip("/")]: every trailing slash is removed. *)
Fixpoint rstrip_slash (s : string) : string :=
  match s with
  | EmptyString => EmptyString
  | String c s' =>
      match rstrip_slash s' with
      | EmptyString => if decide (c = "/"%char) then EmptyString else String c EmptyString
      | t => String c t
      end
  end.

(** The lambda of line 189. *)
Definition item_url (base item_id : string) : string :=
  if decide (item_id = "") then "" else base +:+ "/itm/" +:+ item_id.

(** [.fillna("").astype(str)] on a cell holding a string or [NaN]. *)
Definition fillna (o : option string) : string := default "" o.

(** Lines 184-203 for one surviving row of the converted frame and its
    rating; [.dt.strftime] leaves [NaT] cells as [NaN]. *)
Definition export_row (base : string) (rk : RawFeedbackRow * Z) : ReviewExportRow :=
  let (r, k) := rk in
  {| title := fillna (item_title r);
     body := fillna (comment_text r);
     rating := k;
     review_date := fillna ((λ t, strftime_dmy (wall t)) <$> comment_time r);
     reviewer_name := fillna (commenting_user r);
     reviewer_email := "";
     product_url := item_url base (item_id r);
     picture_urls := "";
     product_id := "";
     product_handle := "" |}.

Definition build_ebay_reviews_export
    (rows : list RawFeedbackRow) (ebay_base_url : string)
  : res (list ReviewExportRow) :=
  match rows with
  | [] => Raise EmptyInputError
  | _ =>
      let df := coerce_comment_time rows in
      match filter seller_with_comment df with
      | [] => Raise NoMatchingRowsError
      | df => Return (export_row (rstrip_slash ebay_base_url) <$> rated df)
      end
  end.

(** ** fetch_all_feedback (lines 59-138) *)

(** What [data.get(key)] can find under a key: nothing, [None], or a value. *)
Inductive field (A : Type) : Type :=
| Absent
| Null
| Present (a : A).
Arguments Absent {A}.
Arguments Null {A}.
Arguments Present {A} a.

(** One [FeedbackDetail] entry: a dict from field names to text or [None],
    the leaves of a response turned into a dict.  A key bound to [None] is
    still a key: such a dict is not empty. *)
Abbreviation feedback := (gmap string (option string)).

(** The value under [FeedbackDetail]: a single entry (a dict) or a
    collection (a list of dicts). *)
Inductive FeedbackDetail_t : Type :=
| Object (fb : feedback)
| Collection (fbs : list feedback).

(** [response.dict()], restricted to the two entries the function reads:
    [FeedbackDetailArray] holds the dict whose key [FeedbackDetail] is given,
    [PaginationResult] the dict whose key [TotalNumberOfPages] is given. *)
Record response : Type := mkResponse {
  FeedbackDetailArray : field (field FeedbackDetail_t);
  PaginationResult : field (field string)
}.

(** The parameters of one [GetFeedback] call (lines 75-82); the call name and
    the detail level are constants. *)
Record request : Type := mkRequest {
  FeedbackType : string;
  EntriesPerPage : Z;
  PageNumber : Z
}.

(** [client.execute] either raises or returns a response. *)
Inductive reply : Type :=
| Fails (e : exn)
| Responds (data : response).

(** The loop asks for every page at most once, so a client, stateful or
    not, is the function from the request to what it does on it. *)
Definition Trading : Type := request → reply.

(** [fb.get(key)] *)
Definition py_get (fb : feedback) (key : string) : option string :=
  mjoin (fb !! key).

(** Line 96: [data.get("FeedbackDetailArray", {}).get("FeedbackDetail", [])].
    The result is [None], a dict or a list; [.get] on [None] raises. *)
Definition details_of (data : response) : res (option FeedbackDetail_t) :=
  match FeedbackDetailArray data with
  | Absent => Return (Some (Collection []))
  | Null => Raise AttributeError
  | Present Absent => Return (Some (Collection []))
  | Present Null => Return None
  | Present (Present d) => Return (Some d)
  end.

(** Python truth of [details] (line 98): [None], the empty dict and the
    empty list are false. *)
Definition truthy (details : option FeedbackDetail_t) : bool :=
  match details with
  | None => false
  | Some (Object fb) => negb (bool_decide (fb = ∅))
  | Some (Collection fbs) => negb (bool_decide (fbs = []))
  end.

(** Lines 101-102, on a true [details]. *)
Definition as_list (details : option FeedbackDetail_t) : list feedback :=
  match details with
  | None => []
  | Some (Object fb) => [fb]
  | Some (Collection fbs) => fbs
  end.

Section Fetcher.

(** [dateutil.parser.parse] on a string: [None] when it raises. *)
Variable date_parse : string → option timestamp.

(** [int] on a string: [None] when it raises [ValueError]. *)
Variable py_int : string → option Z.

(** Lines 105-126. *)
Definition make_row (fb : feedback) : RawFeedbackRow :=
  let comment_time_raw := py_get fb "CommentTime" in
  {| comment_text := py_get fb "CommentText";
     comment_type := py_get fb "CommentType";
     comment_time :=
       match comment_time_raw with
       | Some s => if decide (s = "") then None else date_parse s
       | None => None
       end;
     role := py_get fb "Role";
     item_id := default "" (py_get fb "ItemID");
     item_title := py_get fb "ItemTitle";
     commenting_user := py_get fb "CommentingUser" |}.

(** Lines 129-130. *)
Definition total_pages_of (data : response) (page : Z) : res Z :=
  let pagination_result :=
    match PaginationResult data with
    | Absent | Null => Absent
    | Present f => f
    end in
  match pagination_result with
  | Absent => Return page
  | Null => Raise TypeError
  | Present s =>
      match py_int s with
      | Some n => Return n
      | None => Raise ValueError
      end
  end.

(** What one turn of the [while True] loop does. *)
Inductive turn : Type :=
| Break (all_rows : list RawFeedbackRow)
| Continue (page : Z) (all_rows : list RawFeedbackRow)
| Escapes (e : exn).

Definition loop_body (client : Trading) (feedback_type : string)
    (entries_per_page : Z) (page : Z) (all_rows : list RawFeedbackRow) : turn :=
  match client (mkRequest feedback_type entries_per_page page) with
  | Fails ConnectionError => Break all_rows
  | Fails e => Escapes e
  | Responds data =>
      match details_of data with
      | Raise e => Escapes e
      | Return details =>
          if negb (truthy details) then Break all_rows
          else
            let all_rows := all_rows ++ (make_row <$> as_list details) in
            match total_pages_of data page with
            | Raise e => Escapes e
            | Return total_pages =>
                if (page >=? total_pages)%Z then Break all_rows
                else Continue (page + 1) all_rows
            end
      end
  end.

(** The loop, with a bound on the number of turns: [None] when the bound
    is reached before the loop has left. *)
Fixpoint fetch_loop (fuel : nat) (client : Trading) (feedback_type : string)
    (entries_per_page : Z) (page : Z) (all_rows : list RawFeedbackRow)
  : option (res (list RawFeedbackRow)) :=
  match fuel with
  | O => None
  | S fuel' =>
      match loop_body client feedback_type entries_per_page page all_rows with
      | Break rows => Some (Return rows)
      | Escapes e => Some (Raise e)
      | Continue page' rows =>
          fetch_loop fuel' client feedback_type entries_per_page page' rows
      end
  end.

Definition fetch_all_feedback (fuel : nat) (client : Trading)
    (feedback_type : string) (entries_per_page : Z)
  : option (res (list RawFeedbackRow)) :=
  fetch_loop fuel client feedback_type entries_per_page 1 [].

End Fetcher.

(** *** The pages of a run *)

Section Pages.

Variable date_parse : string → option timestamp.
Variable py_int : string → option Z.
Variable client : Trading.
Variable feedback_type : string.
Variable entries_per_page : Z.

(** The rows that lines 104-127 append for a page. *)
Definition page_rows (page : Z) : list RawFeedbackRow :=
  match client (mkRequest feedback_type entries_per_page page) with
  | Responds data =>
      match details_of data with
      | Return details =>
          if truthy details then make_row date_parse <$> as_list details else []
      | Raise _ => []
      end
  | Fails _ => []
  end.

(** The turn for a page ends at line 136: the loop goes on to the next
    page. *)
Definition asks_for_more (page : Z) : bool :=
  match loop_body date_parse py_int client feedback_type entries_per_page page [] with
  | Continue _ _ => true
  | _ => false
  end.

End Pages.

(** A client that answers with a one-element collection wherever [client]
    answers with a single object. *)
Definition as_collection (client : Trading) : Trading :=
  λ req,
    match client req with
    | Responds (mkResponse (Present (Present (Object fb))) pagination) =>
        Responds (mkResponse (Present (Present (Collection [fb]))) pagination)
    | r => r
    end.

(** The single object a client answers with, if it does. *)
Definition single_object (r : reply) : option feedback :=
  match r with
  | Responds (mkResponse (Present (Present (Object fb))) _) => Some fb
  | _ => None
  end.

(** ** Instances of the two library functions *)

Definition digit_value (c : ascii) : option Z :=
  let n := nat_of_ascii c in
  if bool_decide (48 ≤ n ≤ 57)%nat then Some (Z.of_nat n - 48)%Z else None.

Fixpoint digits_value (acc : Z) (s : string) : option Z :=
  match s with
  | EmptyString => Some acc
  | String c s' => d ← digit_value c; digits_value (10 * acc + d) s'
  end.

(** The ASCII characters that [int] skips around a numeral. *)
Definition is_space (c : ascii) : bool :=
  let n := nat_of_ascii c in
  bool_decide ((9 ≤ n ≤ 13) ∨ (28 ≤ n ≤ 32))%nat.

Fixpoint lstrip_space (s : string) : string :=
  match s with
  | EmptyString => EmptyString
  | String c s' => if is_space c then lstrip_space s' else s
  end.

Fixpoint rstrip_space (s : string) : string :=
  match s with
  | EmptyString => EmptyString
  | String c s' =>
      match rstrip_space s' with
      | EmptyString => if is_space c then EmptyString else String c EmptyString
      | t => String c t
      end
  end.

(** The digits of a numeral, in which single underscores may stand between
    two digits; [after_digit] tells that the character before was a digit. *)
Fixpoint digits_of (after_digit : bool) (s : string) : option string :=
  match s with
  | EmptyString => if after_digit then Some EmptyString else None
  | String c s' =>
      match digit_value c with
      | Some _ => String c <$> digits_of true s'
      | None =>
          if bool_decide (c = "_"%char) && after_digit then digits_of false s'
          else None
      end
  end.

(** The default of [sys.get_int_max_str_digits()]. *)
Definition max_str_digits : nat := 4300.

Definition numeral (s : string) : option Z :=
  ds ← digits_of false s;
  if bool_decide (String.length ds ≤ max_str_digits)%nat then digits_value 0 ds else None.

(** [int] on an ASCII string, in base 10: surrounding white space, an
    optional sign, and digits with single underscores between them, at
    most 4300 digits.  [None] is a [ValueError]. *)
Definition int_decimal (s : string) : option Z :=
  match rstrip_space (lstrip_space s) with
  | String c s' =>
      if bool_decide (c = "-"%char) then Z.opp <$> numeral s'
      else if bool_decide (c = "+"%char) then numeral s'
      else numeral (String c s')
  | EmptyString => None
  end.

Definition two_digits (a b : ascii) : option nat :=
  x ← digit_value a; y ← digit_value b; Some (Z.to_nat (10 * x + y)).

Definition is_leap (y : nat) : bool :=
  ((y mod 4 =? 0) && negb (y mod 100 =? 0) || (y mod 400 =? 0))%nat.

Definition days_in_month (y m : nat) : nat :=
  if (m =? 2)%nat then (if is_leap y then 29 else 28)
  else if ((m =? 4) || (m =? 6) || (m =? 9) || (m =? 11))%nat then 30 else 31.

(** A date parser for the stamps of the API, of the shape
    [YYYY-MM-DDTHH:MM:SSZ] with a date and a time of the calendar; the
    result is in UTC.  Any other string is rejected. *)
Definition iso_parse (s : string) : option timestamp :=
  match list_ascii_of_string s with
  | [y1; y2; y3; y4; c1; m1; m2; c2; d1; d2; c3; h1; h2; c4; n1; n2; c5; s1; s2; c6] =>
      if bool_decide ([c1; c2; c3; c4; c5; c6] = ["-"; "-"; "T"; ":"; ":"; "Z"]%char)
      then
        yh ← two_digits y1 y2; yl ← two_digits y3 y4;
        mo ← two_digits m1 m2; dd ← two_digits d1 d2;
        hh ← two_digits h1 h2; mi ← two_digits n1 n2; ss ← two_digits s1 s2;
        let y := (100 * yh + yl)%nat in
        if bool_decide (1 ≤ y ∧ 1 ≤ mo ≤ 12 ∧ 1 ≤ dd ≤ days_in_month y mo
                        ∧ hh < 24 ∧ mi < 60 ∧ ss < 60)%nat
        then Some (mktimestamp (mkdatetime y mo dd hh mi ss) (Some 0%Z))
        else None
      else None
  | _ => None
  end.

(** ** Sample rows, entries and clients *)

Definition great_row : RawFeedbackRow :=
  mkRow (Some "Great!") (Some "Positive")
        (Some (mktimestamp (mkdatetime 2024 3 5 10 0 0) (Some 0%Z)))
        (Some "Seller") "123" (Some "Widget") (Some "alice").

(** Seller feedback whose timestamp carries no zone. *)
Definition naive_row : RawFeedbackRow :=
  mkRow (Some "Fine") (Some "Negative")
        (Some (mktimestamp (mkdatetime 2024 3 6 9 30 0) None))
        (Some "Seller") "124" (Some "Gadget") (Some "dave").

(** Seller feedback of a type the rating table does not list. *)
Definition withdrawn_row : RawFeedbackRow :=
  mkRow (Some "Changed my mind") (Some "Withdrawn") None
        (Some "Seller") "77" (Some "Lamp") (Some "bob").

Definition buyer_row : RawFeedbackRow :=
  mkRow (Some "Fast payment") (Some "Positive") None
        (Some "Buyer") "9" (Some "Chair") (Some "carol").

(** Seller feedback with no timestamp. *)
Definition undated_row : RawFeedbackRow :=
  mkRow (Some "OK") (Some "Neutral") None (Some "Seller") "" None None.

Definition great_fb : feedback :=
  {[ "CommentText" := Some "Great!"; "CommentType" := Some "Positive";
     "CommentTime" := Some "2024-03-05T10:00:00Z"; "Role" := Some "Seller";
     "ItemID" := Some "123"; "ItemTitle" := Some "Widget";
     "CommentingUser" := Some "alice" ]}.

Definition vague_fb : feedback :=
  {[ "CommentText" := Some "OK"; "CommentType" := Some "Neutral";
     "CommentTime" := Some "some time ago"; "Role" := Some "Seller" ]}.

Definition page_of (fbs : list feedback) (total : string) : reply :=
  Responds (mkResponse (Present (Present (Collection fbs))) (Present (Present total))).

(** Two pages of feedback, then a transport error. *)
Definition failing_client : Trading :=
  λ req,
    if bool_decide (PageNumber req = 1)%Z then page_of [great_fb] "3"
    else if bool_decide (PageNumber req = 2)%Z then page_of [vague_fb] "3"
    else Fails ConnectionError.

(** One page of feedback, then a page with no entries whose page count is
    not a number. *)
Definition odd_total_client : Trading :=
  λ req,
    if bool_decide (PageNumber req = 1)%Z then page_of [great_fb] "2"
    else page_of [] "abc".

(** One page of feedback, then a page with an entry whose page count is
    not a number. *)
Definition bad_total_client : Trading :=
  λ req,
    if bool_decide (PageNumber req = 1)%Z then page_of [great_fb] "2"
    else page_of [vague_fb] "abc".

(** A single page whose [FeedbackDetail] is an object with no fields. *)
Definition empty_object_client : Trading :=
  λ req, Responds (mkResponse (Present (Present (Object ∅))) (Present (Present "1"))).

(** A single page whose [FeedbackDetail] is one object. *)
Definition single_object_client : Trading :=
  λ req, Responds (mkResponse (Present (Present (Object great_fb))) (Present (Present "1"))).

(** One page of feedback that reports five pages, then a page with no
    entries. *)
Definition short_client : Trading :=
  λ req,
    if bool_decide (PageNumber req = 1)%Z then page_of [great_fb] "5"
    else page_of [] "5".

(** The timestamps of the rows of a list have one zone, or are all naive. *)
Definition same_zone (rows : list RawFeedbackRow) : Prop :=
  ∀ r1 r2 t1 t2, r1 ∈ rows → r2 ∈ rows →
    comment_time r1 = Some t1 → comment_time r2 = Some t2 → tzinfo t1 = tzinfo t2.

(** A row after the conversion of the column: the row itself, or the row
    without its timestamp. *)
Definition coerced (r r' : RawFeedbackRow) : Prop :=
  r' = r ∨ r' = set_comment_time r None.

(** A state of the conversion that has met nothing that a timestamp of the
    given zone cannot follow. *)
Definition agrees (st : parse_state) (zone : option Z) : Prop :=
  match zone with
  | Some z => found_naive st = false ∧ (tz_out st = None ∨ tz_out st = Some z)
  | None => found_tz st = false
  end.

(** ** get_trading_client (lines 20-56) *)

(** [os.environ]: the variables that are set, with their values. *)
Abbreviation environ := (gmap string string).

(** The keyword arguments of the [Trading] constructor (lines 48-55). *)
Record TradingConfig : Type := mkTradingConfig {
  domain : string;
  appid : option string;
  devid : option string;
  certid : option string;
  token : option string;
  config_file : option string
}.

(** [not value] on what [os.environ.get] returns: [None] and the empty
    string are false values. *)
Definition not_value (value : option string) : bool :=
  match value with
  | None => true
  | Some s => bool_decide (s = "")
  end.

(** [sep.join(l)] *)
Fixpoint join (sep : string) (l : list string) : string :=
  match l with
  | [] => ""
  | [x] => x
  | x :: l' => x +:+ sep +:+ join sep l'
  end.

Definition newline : string := String "010"%char "".

(** The list comprehension of lines 35-40. *)
Definition missing (env : environ) : list string :=
  (λ nv : string * option string, nv.1) <$>
    filter (λ nv : string * option string, not_value nv.2 = true)
      [ ("EBAY_APP_ID", env !! "EBAY_APP_ID");
        ("EBAY_DEV_ID", env !! "EBAY_DEV_ID");
        ("EBAY_CERT_ID", env !! "EBAY_CERT_ID");
        ("EBAY_TOKEN", env !! "EBAY_TOKEN") ].

(** The message of lines 43-46. *)
Definition missing_message (names : list string) : string :=
  "Missing required environment variables: " +:+ join ", " names +:+ newline
  +:+ "Set them in the terminal before running this script.".

Section Client.

(** The [Trading] constructor: the client that a configuration gives. *)
Variable connect : TradingConfig → Trading.

Definition get_trading_client (env : environ) : res Trading :=
  let appid := env !! "EBAY_APP_ID" in
  let devid := env !! "EBAY_DEV_ID" in
  let certid := env !! "EBAY_CERT_ID" in
  let token := env !! "EBAY_TOKEN" in
  match missing env with
  | [] =>
      Return (connect {| domain := "api.ebay.com";
                         appid := appid; devid := devid;
                         certid := certid; token := token;
                         config_file := None |})
  | names => Raise (SystemExit (missing_message names))
  end.

End Client.

(** ** main (lines 208-235) *)

(** [strftime("%Y%m%d_%H%M%S")] on a timestamp (line 229). *)
Definition strftime_compact (t : datetime) : string :=
  pad4 (year t) +:+ pad2 (month t) +:+ pad2 (day t) +:+ "_"
  +:+ pad2 (hour t) +:+ pad2 (minute t) +:+ pad2 (second t).

(** Lines 227-230: the file below the [output] directory, as a POSIX path. *)
Definition out_path (now : datetime) : string :=
  "output/" +:+ "ebay_product_reviews_for_judgeme_" +:+ strftime_compact now +:+ ".xlsx".

Definition NoRowsReturned : exn := SystemExit "No feedback rows returned from eBay".

Section Main.

Variable date_parse : string → option timestamp.
Variable py_int : string → option Z.
Variable connect : TradingConfig → Trading.

(** The run of [main]: what it raises, or the path and the table of the
    spreadsheet it writes.  [now] is what [datetime.utcnow()] returns at
    line 229; [fuel] bounds the turns of the fetch loop. *)
Definition main (env : environ) (now : datetime) (fuel : nat)
  : option (res (string * list ReviewExportRow)) :=
  let ebay_base_url := default "https://www.ebay.co.uk" (env !! "EBAY_BASE_URL") in
  match get_trading_client connect env with
  | Raise e => Some (Raise e)
  | Return client =>
      match fetch_all_feedback date_parse py_int fuel client "FeedbackReceived" 200 with
      | None => None
      | Some (Raise e) => Some (Raise e)
      | Some (Return rows) =>
          match rows with
          | [] => Some (Raise NoRowsReturned)
          | _ =>
              match build_ebay_reviews_export rows ebay_base_url with
              | Raise e => Some (Raise e)
              | Return export_df => Some (Return (out_path now, export_df))
              end
          end
      end
  end.

End Main.

(** The names of lines 36-39, in their order. *)
Definition required_names : list string :=
  ["EBAY_APP_ID"; "EBAY_DEV_ID"; "EBAY_CERT_ID"; "EBAY_TOKEN"].

(** A Python [datetime] whose year has four digits. *)
Definition four_digit_datetime (t : datetime) : Prop :=
  (1000 ≤ year t < 10 * 1000 ∧ 1 ≤ month t ≤ 12 ∧ 1 ≤ day t ≤ 31
   ∧ hour t < 24 ∧ minute t < 60 ∧ second t < 60)%nat.

(** A run of slashes. *)
Fixpoint slashes (n : nat) : string :=
  match n with
  | O => EmptyString
  | S n' => String "/" (slashes n')
  end.

(** ** More samples *)

Definition full_env : environ :=
  {[ "EBAY_APP_ID" := "app"; "EBAY_DEV_ID" := "dev";
     "EBAY_CERT_ID" := "cert"; "EBAY_TOKEN" := "tok" ]}.

(** The certificate id is set to the empty string and the token is not set. *)
Definition partial_env : environ :=
  {[ "EBAY_APP_ID" := "app"; "EBAY_DEV_ID" := "dev"; "EBAY_CERT_ID" := "" ]}.

(** A client that fails on every request. *)
Definition down_client : Trading := λ req, Fails ConnectionError.

(** One page with one entry, reported as the only page. *)
Definition one_page_client : Trading := λ req, page_of [great_fb] "1".

(** One page whose only entry has a key and no value: no Seller feedback. *)
Definition no_seller_client : Trading :=
  λ req, page_of [{[ "CommentText" := None ]}] "1".

(** * Properties *)

(** ** The rating table *)

Lemma RATING_MAP_Positive : RATING_MAP !! "Positive" = Some 5%Z.
Proof. reflexivity. Qed.

Lemma RATING_MAP_Neutral : RATING_MAP !! "Neutral" = Some 3%Z.
Proof. reflexivity. Qed.

Lemma RATING_MAP_Negative : RATING_MAP !! "Negative" = Some 1%Z.
Proof. reflexivity. Qed.

Lemma RATING_MAP_other (s : string) :
  s ≠ "Positive" → s ≠ "Neutral" → s ≠ "Negative" → RATING_MAP !! s = None.
Proof.
  intros H5 H3 H1. unfold RATING_MAP.
  rewrite !lookup_insert_ne by congruence.
  apply lookup_singleton_ne. congruence.
Qed.

Lemma RATING_MAP_Some (s : string) (k : Z) :
  RATING_MAP !! s = Some k →
  (s = "Positive" ∧ k = 5%Z) ∨ (s = "Neutral" ∧ k = 3%Z) ∨ (s = "Negative" ∧ k = 1%Z).
Proof.
  intros Hk.
  destruct (decide (s = "Positive")) as [->|H5]; [left; split; [done|]; by inversion Hk|].
  destruct (decide (s = "Neutral")) as [->|H3]; [right; left; split; [done|]; by inversion Hk|].
  destruct (decide (s = "Negative")) as [->|H1]; [right; right; split; [done|]; by inversion Hk|].
  rewrite RATING_MAP_other in Hk by done. discriminate.
Qed.

(** ** The stages of the transform *)

Lemma rated_cons (r : RawFeedbackRow) (df : list RawFeedbackRow) :
  rated (r :: df) =
    match map_rating r with
    | Some k => (r, k) :: rated df
    | None => rated df
    end.
Proof. unfold rated. simpl. by destruct (map_rating r). Qed.

Lemma rated_none (df : list RawFeedbackRow) :
  (∀ r, r ∈ df → map_rating r = None) → rated df = [].
Proof.
  induction df as [|r df IH]; intros Hall; [done|].
  rewrite rated_cons, (Hall r) by left.
  apply IH. intros r' Hr'. apply Hall. by right.
Qed.

Lemma elem_of_rated (df : list RawFeedbackRow) (r : RawFeedbackRow) (k : Z) :
  (r, k) ∈ rated df ↔ r ∈ df ∧ map_rating r = Some k.
Proof.
  unfold rated. rewrite list_elem_of_omap. split.
  - intros (r' & Hin & Heq). destruct (map_rating r') as [k'|] eqn:Hk; simplify_eq/=.
    by split.
  - intros [Hin Hk]. exists r. split; [done|]. by rewrite Hk.
Qed.

(** *** The conversion of the timestamps *)

Lemma zip_with_fmap_same {A B C} (f : A → B → C) (g : A → B) (l : list A) :
  zip_with f l (g <$> l) = (λ x, f x (g x)) <$> l.
Proof. induction l as [|x l IH]; [done|]. rewrite !fmap_cons. simpl. by f_equal. Qed.

Lemma set_comment_time_same (r : RawFeedbackRow) : set_comment_time r (comment_time r) = r.
Proof. by destruct r. Qed.

(** A converted timestamp is the timestamp itself or [NaT]. *)
Lemma process_datetime_cases (st : parse_state) (t : timestamp) :
  (process_datetime st t).2 = Some t ∨ (process_datetime st t).2 = None.
Proof.
  unfold process_datetime.
  destruct (tzinfo t), (found_naive st), (found_tz st); simpl;
    try case_bool_decide; auto.
Qed.

Lemma process_datetime_agrees (st : parse_state) (t : timestamp) :
  agrees st (tzinfo t) →
  (process_datetime st t).2 = Some t ∧ agrees (process_datetime st t).1 (tzinfo t).
Proof.
  unfold process_datetime. destruct (tzinfo t) as [z|]; simpl.
  - intros [Hnaive Hzone]. rewrite Hnaive. simpl.
    rewrite bool_decide_true by done. simpl. auto.
  - intros Htz. rewrite Htz. by simpl.
Qed.

Lemma array_to_datetime_one_zone
    (st : parse_state) (zone : option Z) (column : list (option timestamp)) :
  agrees st zone → (∀ t, Some t ∈ column → tzinfo t = zone) →
  array_to_datetime st column = column.
Proof.
  revert st. induction column as [|[t|] column IH]; intros st Hst Hall; [done| |].
  - cbn [array_to_datetime].
    assert (tzinfo t = zone) as Hzone by (apply Hall; left). subst zone.
    destruct (process_datetime_agrees st t Hst) as [Hcell Hst'].
    destruct (process_datetime st t) as [st' cell]. simpl in Hcell, Hst'. subst cell.
    f_equal. apply IH; [done|]. intros t' Ht'. apply Hall. by right.
  - cbn [array_to_datetime]. f_equal. apply IH; [done|].
    intros t' Ht'. apply Hall. by right.
Qed.

(** In a list of one zone the conversion changes no row. *)
Lemma coerce_comment_time_same_zone (rows : list RawFeedbackRow) :
  same_zone rows → coerce_comment_time rows = rows.
Proof.
  intros Hzone. unfold coerce_comment_time, to_datetime.
  rewrite (array_to_datetime_one_zone _
             (head (omap id (comment_time <$> rows)) ≫= tzinfo)).
  - rewrite zip_with_fmap_same.
    erewrite list_fmap_ext; [apply list_fmap_id|].
    intros i r _. apply set_comment_time_same.
  - destruct (head (omap id (comment_time <$> rows)) ≫= tzinfo); simpl; auto.
  - intros t Ht. apply list_elem_of_fmap in Ht as (r & Hr & Hin).
    destruct (head (omap id (comment_time <$> rows))) as [t0|] eqn:Hhead.
    + apply head_Some_elem_of in Hhead.
      apply list_elem_of_omap in Hhead as (c & Hc & Hid).
      apply list_elem_of_fmap in Hc as (r0 & -> & Hr0). simpl in Hid.
      simpl. by apply (Hzone r r0).
    + apply head_None in Hhead.
      assert (t ∈ omap id (comment_time <$> rows)) as Hin'.
      { apply list_elem_of_omap. exists (Some t). split; [|done].
        apply list_elem_of_fmap. by exists r. }
      rewrite Hhead in Hin'. by apply elem_of_nil in Hin'.
Qed.

(** The conversion leaves every row as it is or takes its timestamp. *)
Lemma array_to_datetime_coerced (st : parse_state) (df : list RawFeedbackRow) :
  Forall2 coerced df
    (zip_with set_comment_time df (array_to_datetime st (comment_time <$> df))).
Proof.
  revert st. induction df as [|r df IH]; intros st; [constructor|].
  rewrite fmap_cons. cbn [array_to_datetime].
  destruct (comment_time r) as [t|] eqn:Ht.
  - pose proof (process_datetime_cases st t) as Hcell.
    destruct (process_datetime st t) as [st' cell]. simpl in Hcell.
    cbn [zip_with]. constructor; [|apply IH].
    destruct Hcell as [-> | ->]; [left|by right].
    rewrite <- Ht. apply set_comment_time_same.
  - cbn [zip_with]. constructor; [|apply IH].
    left. rewrite <- Ht. apply set_comment_time_same.
Qed.

Lemma coerce_comment_time_coerced (df : list RawFeedbackRow) :
  Forall2 coerced df (coerce_comment_time df).
Proof. apply array_to_datetime_coerced. Qed.

Lemma coerced_seller_with_comment (r r' : RawFeedbackRow) :
  coerced r r' → seller_with_comment r' ↔ seller_with_comment r.
Proof. by intros [-> | ->]. Qed.

Lemma coerced_map_rating (r r' : RawFeedbackRow) :
  coerced r r' → map_rating r' = map_rating r.
Proof. by intros [-> | ->]. Qed.

Lemma coerced_filter (df df' : list RawFeedbackRow) :
  Forall2 coerced df df' →
  Forall2 coerced (filter seller_with_comment df) (filter seller_with_comment df').
Proof.
  induction 1 as [|r r' df df' Hr Hdf IH]; [constructor|].
  pose proof (coerced_seller_with_comment r r' Hr) as Hiff.
  destruct (decide (seller_with_comment r)) as [Hsel|Hsel].
  - rewrite !filter_cons_True by tauto. by constructor.
  - by rewrite !filter_cons_False by tauto.
Qed.

Lemma coerced_rated (df df' : list RawFeedbackRow) :
  Forall2 coerced df df' →
  Forall2 (λ rk rk', coerced rk.1 rk'.1 ∧ rk'.2 = rk.2 ∧ map_rating rk.1 = Some rk.2)
    (rated df) (rated df').
Proof.
  induction 1 as [|r r' df df' Hr Hdf IH]; [constructor|].
  rewrite !rated_cons, (coerced_map_rating r r') by done.
  destruct (map_rating r) as [k|] eqn:Hk; [|done]. by constructor.
Qed.

(** The rows that leave the rating stage, beside those that would leave it
    without the conversion of the timestamps. *)
Lemma rated_selection_coerced (rows : list RawFeedbackRow) :
  Forall2 (λ rk rk', coerced rk.1 rk'.1 ∧ rk'.2 = rk.2 ∧ map_rating rk.1 = Some rk.2)
    (rated (filter seller_with_comment rows))
    (rated (filter seller_with_comment (coerce_comment_time rows))).
Proof. apply coerced_rated, coerced_filter, coerce_comment_time_coerced. Qed.

Lemma fmap_Forall2_eq {A B} (R : A → A → Prop) (f : A → B) (l l' : list A) :
  Forall2 R l l' → (∀ x y, R x y → f y = f x) → f <$> l' = f <$> l.
Proof.
  intros Hl Hf. induction Hl as [|x y l l' Hxy Hl IH]; [done|].
  rewrite !fmap_cons. f_equal; auto.
Qed.


(** The function raises on an empty input and on an empty selection, and
    otherwise returns one line per rated row of the selection of the
    converted frame. *)
Lemma build_ebay_reviews_export_unfold (rows : list RawFeedbackRow) (base : string) :
  build_ebay_reviews_export rows base =
    if decide (rows = []) then Raise EmptyInputError
    else if decide (filter seller_with_comment rows = []) then Raise NoMatchingRowsError
    else Return (export_row (rstrip_slash base)
                   <$> rated (filter seller_with_comment (coerce_comment_time rows))).
Proof.
  unfold build_ebay_reviews_export.
  destruct rows as [|r rows]; [done|].
  rewrite decide_False by done.
  pose proof (coerced_filter _ _ (coerce_comment_time_coerced (r :: rows))) as Hsel.
  destruct (filter seller_with_comment (r :: rows)) as [|r' df].
  - apply Forall2_nil_inv_l in Hsel. rewrite Hsel. by rewrite decide_True.
  - rewrite decide_False by done.
    destruct (filter seller_with_comment (coerce_comment_time (r :: rows))); [|done].
    by apply Forall2_cons_nil_inv in Hsel.
Qed.

(** In an input of one zone every line shows its row as it is. *)
Lemma build_same_zone (rows : list RawFeedbackRow) (base : string) :
  same_zone rows →
  build_ebay_reviews_export rows base =
    if decide (rows = []) then Raise EmptyInputError
    else if decide (filter seller_with_comment rows = []) then Raise NoMatchingRowsError
    else Return (export_row (rstrip_slash base) <$> rated (filter seller_with_comment rows)).
Proof.
  intros Hzone. rewrite build_ebay_reviews_export_unfold.
  by rewrite coerce_comment_time_same_zone.
Qed.

(** ** Properties of build_ebay_reviews_export *)

(** C1: one Seller row with a comment whose type the rating table does not
    list survives the selection and loses its rating, so nothing survives
    the rating stage; the function then returns the empty table where the
    claim has it raise NoMatchingRowsError. *)
Lemma unrated_selection_returns :
  filter seller_with_comment [withdrawn_row] = [withdrawn_row]
  ∧ map_rating withdrawn_row = None
  ∧ build_ebay_reviews_export [withdrawn_row] "https://www.ebay.co.uk" = Return []
  ∧ build_ebay_reviews_export [withdrawn_row] "https://www.ebay.co.uk"
      ≠ Raise NoMatchingRowsError.
Proof. repeat split; [vm_compute; reflexivity..|discriminate]. Qed.

(** The rating of a row, read off the three entries of the table. *)
Lemma map_rating_table (r : RawFeedbackRow) :
  map_rating r =
    match comment_type r with
    | Some s =>
        if decide (s = "Positive") then Some 5%Z
        else if decide (s = "Neutral") then Some 3%Z
        else if decide (s = "Negative") then Some 1%Z
        else None
    | None => None
    end.
Proof.
  unfold map_rating. destruct (comment_type r) as [s|]; [|done]. simpl.
  repeat case_decide; subst; try done. by apply RATING_MAP_other.
Qed.

(** The rows that come out of the rating stage. *)
Lemma rated_filter_fst (rows : list RawFeedbackRow) :
  (rated (filter seller_with_comment rows)).*1
    = filter (λ r, seller_with_comment r ∧ is_Some (map_rating r)) rows.
Proof.
  induction rows as [|r rows IH]; [done|].
  destruct (decide (seller_with_comment r)) as [Hsel|Hsel].
  - rewrite (filter_cons_True seller_with_comment) by done.
    rewrite rated_cons. destruct (map_rating r) as [k|] eqn:Hk.
    + rewrite filter_cons_True by (split; [done|by rewrite Hk]).
      rewrite fmap_cons. simpl. by rewrite IH.
    + rewrite filter_cons_False; [done|].
      intros [_ [k Hk']]. congruence.
  - rewrite (filter_cons_False seller_with_comment) by done.
    rewrite filter_cons_False; [done|]. by intros [? _].
Qed.

(** C3: when some row reaches the rating stage the function returns, and
    its lines are, in the order of the input, those of the selected rows of
    type Positive, Neutral and Negative, with ratings 5, 3 and 1; a selected
    row of any other type gives no line, and so does a row that is not
    selected. *)
Theorem rating_stage_maps_or_drops
    (rows : list RawFeedbackRow) (base : string) :
  filter seller_with_comment rows ≠ [] →
  ∃ out,
    build_ebay_reviews_export rows base = Return out
    ∧ (λ e, (title e, body e, reviewer_name e, rating e)) <$> out
      = omap (λ r,
          if decide (seller_with_comment r) then
            match comment_type r with
            | Some s =>
                (λ k : Z, (default "" (item_title r), default "" (comment_text r),
                           default "" (commenting_user r), k))
                  <$> (if decide (s = "Positive") then Some 5%Z
                       else if decide (s = "Neutral") then Some 3%Z
                       else if decide (s = "Negative") then Some 1%Z
                       else None)
            | None => None
            end
          else None) rows.
Proof.
  intros Hsel. eexists. split.
  { rewrite build_ebay_reviews_export_unfold.
    rewrite decide_False by (intros ->; by apply Hsel).
    by rewrite decide_False by done. }
  rewrite <- list_fmap_compose.
  rewrite (fmap_Forall2_eq _ _ _ _ (rated_selection_coerced rows)).
  2:{ intros [r k] [r' k'] (Hrow & Hk & _). simpl in Hrow, Hk. subst k'.
      by destruct Hrow as [-> | ->]. }
  clear Hsel. induction rows as [|r rows IH]; [done|].
  cbn [omap list_omap]. rewrite <- IH. clear IH.
  destruct (decide (seller_with_comment r)) as [Hr|Hr].
  - rewrite filter_cons_True by done. rewrite rated_cons, map_rating_table.
    destruct (comment_type r) as [s|]; repeat case_decide; done.
  - by rewrite filter_cons_False by done.
Qed.

Lemma rating_stage_maps_or_drops_witness :
  ∃ out,
    build_ebay_reviews_export [great_row; withdrawn_row; buyer_row; undated_row; naive_row]
      "https://www.ebay.co.uk" = Return out
    ∧ (λ e, (title e, body e, reviewer_name e, rating e)) <$> out
      = [("Widget", "Great!", "alice", 5%Z); ("", "OK", "", 3%Z);
         ("Gadget", "Fine", "dave", 1%Z)].
Proof.
  destruct (rating_stage_maps_or_drops
              [great_row; withdrawn_row; buyer_row; undated_row; naive_row]
              "https://www.ebay.co.uk") as (out & Hout & Hlines).
  - vm_compute. discriminate.
  - exists out. split; [done|]. rewrite Hlines. vm_compute. reflexivity.
Defined.

(** C4: the empty input raises EmptyInputError, and a non-empty input in
    which no row is Seller feedback with a comment text and a comment type
    raises NoMatchingRowsError. *)
Theorem empty_input_and_empty_selection_raise
    (rows : list RawFeedbackRow) (base : string) :
  build_ebay_reviews_export [] base = Raise EmptyInputError
  ∧ (rows ≠ [] → (∀ r, r ∈ rows → ¬ seller_with_comment r) →
     build_ebay_reviews_export rows base = Raise NoMatchingRowsError).
Proof.
  split; [done|].
  intros Hne Hnone.
  rewrite build_ebay_reviews_export_unfold.
  rewrite decide_False by done.
  rewrite decide_True; [done|].
  clear Hne. induction rows as [|r rows IH]; [done|].
  rewrite filter_cons_False by (apply Hnone; left).
  apply IH. intros r0 Hr0. apply Hnone. by right.
Qed.

Lemma empty_input_and_empty_selection_raise_witness :
  build_ebay_reviews_export [] "https://www.ebay.co.uk" = Raise EmptyInputError
  ∧ build_ebay_reviews_export [buyer_row] "https://www.ebay.co.uk"
      = Raise NoMatchingRowsError.
Proof.
  split.
  - apply (empty_input_and_empty_selection_raise [] "https://www.ebay.co.uk").
  - apply (empty_input_and_empty_selection_raise [buyer_row]); [done|].
    intros r Hr. apply list_elem_of_singleton in Hr. subst r.
    intros [Hrole _]. discriminate.
Defined.

(** C8: the Seller row "Great!" / Positive / 2024-03-05 10:00:00 / item 123 /
    "Widget" / alice, with base URL https://www.ebay.co.uk, gives exactly one
    line: title Widget, body Great!, rating 5, date 05/03/2024, reviewer
    alice, URL https://www.ebay.co.uk/itm/123, and the four other fields
    empty. *)
Theorem great_row_export :
  build_ebay_reviews_export [great_row] "https://www.ebay.co.uk" =
    Return [ {| title := "Widget";
                body := "Great!";
                rating := 5;
                review_date := "05/03/2024";
                reviewer_name := "alice";
                reviewer_email := "";
                product_url := "https://www.ebay.co.uk/itm/123";
                picture_urls := "";
                product_id := "";
                product_handle := "" |} ].
Proof. vm_compute. reflexivity. Qed.



(** ** The fetch loop *)

Section FetchLoop.

Variable date_parse : string → option timestamp.
Variable py_int : string → option Z.
Variable client : Trading.
Variable feedback_type : string.
Variable entries_per_page : Z.

Local Abbreviation body := (loop_body date_parse py_int client feedback_type entries_per_page).
Local Abbreviation loop := (λ fuel, fetch_loop date_parse py_int fuel client feedback_type entries_per_page).
Local Abbreviation more := (asks_for_more date_parse py_int client feedback_type entries_per_page).
Local Abbreviation rows_of := (page_rows date_parse client feedback_type entries_per_page).

(** A turn only appends to the rows it is given. *)
Lemma loop_body_appends (page : Z) (all_rows : list RawFeedbackRow) :
  body page all_rows =
    match body page [] with
    | Break rows => Break (all_rows ++ rows)
    | Continue page' rows => Continue page' (all_rows ++ rows)
    | Escapes e => Escapes e
    end.
Proof.
  unfold loop_body.
  destruct (client _) as [e|data].
  { destruct e; by rewrite ?app_nil_r. }
  destruct (details_of data) as [details|e]; [|done].
  destruct (truthy details); simpl; [|by rewrite app_nil_r].
  destruct (total_pages_of py_int data page) as [total|e]; [|done].
  by destruct (page >=? total)%Z.
Qed.

(** A turn that does not raise appends the rows of its page, and goes on
    with the next page if it goes on. *)
Lemma loop_body_rows (page : Z) :
  match body page [] with
  | Break rows => rows = rows_of page
  | Continue page' rows => page' = (page + 1)%Z ∧ rows = rows_of page
  | Escapes _ => True
  end.
Proof.
  unfold loop_body, page_rows.
  destruct (client _) as [e|data].
  { by destruct e. }
  destruct (details_of data) as [details|e]; [|done].
  destruct (truthy details); simpl; [|done].
  destruct (total_pages_of py_int data page) as [total|e]; [|done].
  by destruct (page >=? total)%Z.
Qed.

Lemma asks_for_more_true (page : Z) (all_rows : list RawFeedbackRow) :
  more page = true →
  body page all_rows = Continue (page + 1) (all_rows ++ rows_of page).
Proof.
  unfold asks_for_more. intros Hmore.
  rewrite loop_body_appends.
  pose proof (loop_body_rows page) as Hrows.
  destruct (body page []); try discriminate.
  by destruct Hrows as [-> ->].
Qed.

Lemma asks_for_more_false (page : Z) (all_rows : list RawFeedbackRow) :
  more page = false →
  (∃ rows, body page all_rows = Break rows) ∨ (∃ e, body page all_rows = Escapes e).
Proof.
  unfold asks_for_more. intros Hmore.
  rewrite loop_body_appends.
  destruct (body page []); try discriminate; eauto.
Qed.

(** What makes a page the last one: the client fails on it, its details
    cannot be read or are empty, its page count cannot be read, or the
    page number has reached the count. *)
Lemma asks_for_more_false_iff (page : Z) :
  more page = false ↔
    (∃ e, client (mkRequest feedback_type entries_per_page page) = Fails e)
    ∨ (∃ data, client (mkRequest feedback_type entries_per_page page) = Responds data
               ∧ ((∃ e, details_of data = Raise e)
                  ∨ (∃ details, details_of data = Return details ∧ truthy details = false)
                  ∨ (∃ e, total_pages_of py_int data page = Raise e)
                  ∨ (∃ total, total_pages_of py_int data page = Return total
                              ∧ (total ≤ page)%Z))).
Proof.
  unfold asks_for_more, loop_body.
  destruct (client _) as [e|data].
  { split; [eauto|]. by destruct e. }
  split.
  - intros H. right. exists data. split; [done|].
    destruct (details_of data) as [details|e]; [|eauto].
    destruct (truthy details) eqn:Ht; simpl in H; [|eauto 6].
    destruct (total_pages_of py_int data page) as [total|e]; [|eauto 6].
    destruct (page >=? total)%Z eqn:Hge; [|done].
    apply Z.geb_le in Hge. eauto 8.
  - intros [[e [=]]|(data' & [= <-] & H)].
    destruct H as [[e ->]|[(details & -> & ->)|[[e He]|(total & Ht & Hle)]]]; try done.
    + destruct (details_of data) as [details|e']; [|done].
      destruct (truthy details); simpl; [|done]. by rewrite He.
    + destruct (details_of data) as [details|e']; [|done].
      destruct (truthy details); simpl; [|done]. rewrite Ht.
      apply Z.geb_le in Hle. by rewrite Hle.
Qed.

(** More fuel does not change the outcome of a run that has ended. *)
Lemma fetch_loop_more_fuel (fuel fuel' : nat) (page : Z)
    (all_rows : list RawFeedbackRow) (out : res (list RawFeedbackRow)) :
  loop fuel page all_rows = Some out → (fuel ≤ fuel')%nat →
  loop fuel' page all_rows = Some out.
Proof.
  revert fuel' page all_rows.
  induction fuel as [|fuel IH]; intros fuel' page all_rows Hout Hle; [done|].
  destruct fuel' as [|fuel']; [lia|].
  simpl in *. destruct (body page all_rows); [done| |done].
  apply IH; [done|lia].
Qed.

(** While the pages ask for more, the loop walks through them and
    gathers their rows in order. *)
Lemma fetch_loop_pages (n fuel : nat) (page : Z) (all_rows : list RawFeedbackRow) :
  (∀ p, (page ≤ p < page + Z.of_nat n)%Z → more p = true) →
  loop (n + fuel)%nat page all_rows =
    loop fuel (page + Z.of_nat n)%Z (all_rows ++ (seqZ page (Z.of_nat n) ≫= rows_of)).
Proof.
  revert page all_rows.
  induction n as [|n IH]; intros page all_rows Hmore.
  - simpl. by rewrite Z.add_0_r, app_nil_r.
  - cbn [Nat.add fetch_loop].
    rewrite asks_for_more_true by (apply Hmore; lia).
    rewrite IH by (intros p Hp; apply Hmore; lia).
    rewrite (seqZ_cons page) by lia. cbn [mbind list_bind].
    rewrite <- (assoc_L (++)).
    replace (Z.pred (Z.of_nat (S n))) with (Z.of_nat n) by lia.
    replace (Z.succ page) with (page + 1)%Z by lia.
    by replace (page + 1 + Z.of_nat n)%Z with (page + Z.of_nat (S n))%Z by lia.
Qed.

(** The loop leaves at the first page that does not ask for more. *)
Lemma fetch_loop_ends (n : nat) (page : Z) (all_rows : list RawFeedbackRow) :
  more (page + Z.of_nat n)%Z = false →
  ∃ out, loop (S n) page all_rows = Some out.
Proof.
  revert page all_rows.
  induction n as [|n IH]; intros page all_rows Hlast.
  - rewrite Z.add_0_r in Hlast. simpl.
    destruct (asks_for_more_false page all_rows Hlast) as [[rows ->]|[e ->]]; eauto.
  - destruct (more page) eqn:Hpage.
    + cbn [fetch_loop]. rewrite asks_for_more_true by done.
      apply IH.
      by replace (page + 1 + Z.of_nat n)%Z with (page + Z.of_nat (S n))%Z by lia.
    + cbn [fetch_loop].
      destruct (asks_for_more_false page all_rows Hpage) as [[rows ->]|[e ->]]; eauto.
Qed.

(** The first page that does not ask for a further one. *)
Lemma first_last_page (n : nat) (page : Z) :
  more (page + Z.of_nat n)%Z = false →
  ∃ k : nat, (k ≤ n)%nat
    ∧ (∀ p, (page ≤ p < page + Z.of_nat k)%Z → more p = true)
    ∧ more (page + Z.of_nat k)%Z = false.
Proof.
  revert page. induction n as [|n IH]; intros page Hlast.
  - exists 0%nat. split; [done|]. split; [intros p Hp; lia|done].
  - destruct (more page) eqn:Hpage.
    + destruct (IH (page + 1)%Z) as (k & Hk & Hbefore & Hk_last).
      { by replace (page + 1 + Z.of_nat n)%Z with (page + Z.of_nat (S n))%Z by lia. }
      exists (S k). split; [lia|]. split.
      * intros p Hp. destruct (decide (p = page)) as [->|Hne]; [done|].
        apply Hbefore. lia.
      * by replace (page + Z.of_nat (S k))%Z with (page + 1 + Z.of_nat k)%Z by lia.
    + exists 0%nat. split; [lia|]. split; [intros p Hp; lia|].
      by rewrite Z.add_0_r.
Qed.

(** How a page that does not ask for a further one ends the loop, and what
    the loop gives then. *)
Lemma last_page_outcome (page : Z) (all_rows : list RawFeedbackRow) (fuel : nat) :
  more page = false →
  ∃ out, loop (S fuel) page all_rows = Some out
    ∧ ((client (mkRequest feedback_type entries_per_page page) = Fails ConnectionError
        ∧ out = Return all_rows)
       ∨ (∃ e, e ≠ ConnectionError
             ∧ client (mkRequest feedback_type entries_per_page page) = Fails e
             ∧ out = Raise e)
       ∨ (∃ data, client (mkRequest feedback_type entries_per_page page) = Responds data
            ∧ ((∃ e, details_of data = Raise e ∧ out = Raise e)
               ∨ (∃ details, details_of data = Return details ∧ truthy details = false
                    ∧ out = Return all_rows)
               ∨ (∃ details e, details_of data = Return details ∧ truthy details = true
                    ∧ total_pages_of py_int data page = Raise e ∧ out = Raise e)
               ∨ (∃ details total, details_of data = Return details
                    ∧ truthy details = true
                    ∧ total_pages_of py_int data page = Return total
                    ∧ (total ≤ page)%Z
                    ∧ out = Return (all_rows ++ (make_row date_parse <$> as_list details)))))).
Proof.
  unfold asks_for_more. cbn [fetch_loop].
  rewrite (loop_body_appends page all_rows). unfold loop_body.
  destruct (client _) as [e|data].
  { intros _.
    destruct e as [msg| | | | |name]; rewrite ?app_nil_r;
      eexists; (split; [reflexivity|]).
    - right. left. exists (SystemExit msg). by repeat split.
    - by left.
    - right. left. exists AttributeError. by repeat split.
    - right. left. exists TypeError. by repeat split.
    - right. left. exists ValueError. by repeat split.
    - right. left. exists (OtherError name). by repeat split. }
  destruct (details_of data) as [details|e] eqn:Hdetails.
  2:{ intros _. eexists. split; [reflexivity|]. do 2 right. exists data.
      split; [done|]. left. exists e. by split. }
  destruct (truthy details) eqn:Htruthy; cbn [negb].
  2:{ intros _. rewrite app_nil_r. eexists. split; [reflexivity|]. do 2 right.
      exists data. split; [done|]. right. left. exists details. by repeat split. }
  rewrite app_nil_l.
  destruct (total_pages_of py_int data page) as [total|e] eqn:Htotal.
  2:{ intros _. eexists. split; [reflexivity|]. do 2 right. exists data.
      split; [done|]. right. right. left. exists details, e. by repeat split. }
  destruct (page >=? total)%Z eqn:Hge; [|done].
  intros _. eexists. split; [reflexivity|]. do 2 right. exists data. split; [done|].
  right. right. right. exists details, total. apply Z.geb_le in Hge.
  by repeat split.
Qed.

End FetchLoop.

(** ** Properties of fetch_all_feedback *)

(** C2: when the loop gets to page N > 1 and the client raises a transport
    error there, the function raises nothing and returns the rows of pages
    1 to N-1, in page order. *)
Theorem transport_error_keeps_earlier_pages
    (date_parse : string → option timestamp) (py_int : string → option Z)
    (client : Trading) (feedback_type : string) (entries_per_page : Z)
    (N : Z) (fuel : nat) :
  (1 < N)%Z →
  (∀ p, (1 ≤ p < N)%Z →
        asks_for_more date_parse py_int client feedback_type entries_per_page p = true) →
  client (mkRequest feedback_type entries_per_page N) = Fails ConnectionError →
  (Z.to_nat N ≤ fuel)%nat →
  fetch_all_feedback date_parse py_int fuel client feedback_type entries_per_page =
    Some (Return (seqZ 1 (N - 1) ≫= page_rows date_parse client feedback_type entries_per_page)).
Proof.
  intros HN Hmore Hfail Hfuel. unfold fetch_all_feedback.
  replace fuel with (Z.to_nat (N - 1) + S (fuel - Z.to_nat N))%nat by lia.
  rewrite fetch_loop_pages by (intros p Hp; apply Hmore; lia).
  rewrite Z2Nat.id by lia.
  replace (1 + (N - 1))%Z with N by lia.
  cbn [fetch_loop]. unfold loop_body. by rewrite Hfail.
Qed.

Lemma transport_error_keeps_earlier_pages_witness :
  fetch_all_feedback iso_parse int_decimal 3 failing_client "FeedbackReceived" 200 =
    Some (Return [make_row iso_parse great_fb; make_row iso_parse vague_fb]).
Proof.
  rewrite (transport_error_keeps_earlier_pages iso_parse int_decimal failing_client
             "FeedbackReceived" 200 3 3).
  - vm_compute. reflexivity.
  - lia.
  - intros p Hp. assert (p = 1 ∨ p = 2)%Z as [-> | ->] by lia; vm_compute; reflexivity.
  - reflexivity.
  - vm_compute. lia.
Defined.

(** The values of [int_decimal] are bounded: its numerals have at most
    4300 digits. *)
Lemma digit_value_range (c : ascii) (d : Z) :
  digit_value c = Some d → (0 ≤ d ≤ 9)%Z.
Proof.
  unfold digit_value. case_bool_decide as Hc; [|done]. intros [= <-]. lia.
Qed.

Lemma digits_value_bound (s : string) (acc n : Z) :
  (0 ≤ acc)%Z → digits_value acc s = Some n →
  (0 ≤ n < (acc + 1) * 10 ^ Z.of_nat (String.length s))%Z.
Proof.
  revert acc. induction s as [|c s IH]; intros acc Hacc Hn.
  - simpl in *. injection Hn as <-. lia.
  - cbn [digits_value] in Hn.
    destruct (digit_value c) as [d|] eqn:Hd; [|done]. cbn [mbind option_bind] in Hn.
    apply digit_value_range in Hd. apply IH in Hn; [|lia].
    cbn [String.length]. rewrite Nat2Z.inj_succ, Z.pow_succ_r by lia.
    assert (0 < 10 ^ Z.of_nat (String.length s))%Z by (apply Z.pow_pos_nonneg; lia).
    nia.
Qed.

Lemma numeral_bound (s : string) (n : Z) :
  numeral s = Some n → (0 ≤ n < 10 ^ Z.of_nat max_str_digits)%Z.
Proof.
  unfold numeral. destruct (digits_of false s) as [ds|]; [|done].
  cbn [mbind option_bind]. case_bool_decide as Hlen; [|done]. intros Hn.
  apply digits_value_bound in Hn; [|done].
  assert (10 ^ Z.of_nat (String.length ds) ≤ 10 ^ Z.of_nat max_str_digits)%Z
    by (apply Z.pow_le_mono_r; lia).
  lia.
Qed.

Lemma int_decimal_bound (s : string) (n : Z) :
  int_decimal s = Some n → (n ≤ 10 ^ Z.of_nat max_str_digits)%Z.
Proof.
  unfold int_decimal. destruct (rstrip_space (lstrip_space s)) as [|c s']; [done|].
  repeat case_bool_decide.
  - destruct (numeral s') as [m|] eqn:Hm; [|done]. intros [= <-].
    apply numeral_bound in Hm. lia.
  - intros Hn%numeral_bound. lia.
  - intros Hn%numeral_bound. lia.
Qed.

(** C5, as stated, fails: the loop can end in a way that is none of the
    three the claim lists.  On its second page the client answers, with an
    entry and a page count that is not a number: no total is reached, the
    list is not empty and no fetch failed, and the loop ends with the
    ValueError of the conversion. *)
Lemma unread_count_ends_the_loop :
  bad_total_client (mkRequest "FeedbackReceived" 200 2) = page_of [vague_fb] "abc"
  ∧ int_decimal "abc" = None
  ∧ fetch_all_feedback iso_parse int_decimal 2 bad_total_client "FeedbackReceived" 200
      = Some (Raise ValueError)
  ∧ fetch_all_feedback iso_parse int_decimal 9 bad_total_client "FeedbackReceived" 200
      = Some (Raise ValueError).
Proof. repeat split; vm_compute; reflexivity. Qed.

(** C5, amended: when [int] accepts only numerals up to a bound B, as with
    CPython's limit on the digits of a numeral, the loop ends for every
    client, at a page N <= B: either the client fails on page N (a
    ConnectionError returns the rows of the earlier pages, another exception
    leaves the function), or page N has no entries (the rows of the earlier
    pages are returned), or N has reached the page count that page N reports
    (its rows are returned too), or the details or the page count of page N
    cannot be read and the exception leaves the function.  N turns are
    enough, and every larger bound gives the same outcome. *)
Theorem fetch_always_ends
    (date_parse : string → option timestamp) (py_int : string → option Z)
    (client : Trading) (feedback_type : string) (entries_per_page : Z) (B : Z) :
  (1 ≤ B)%Z →
  (∀ s n, py_int s = Some n → (n ≤ B)%Z) →
  ∃ (N : Z) (out : res (list RawFeedbackRow)) (rows : list RawFeedbackRow),
    (1 ≤ N ≤ B)%Z
    ∧ rows = seqZ 1 (N - 1) ≫= page_rows date_parse client feedback_type entries_per_page
    ∧ (∀ fuel, (Z.to_nat N ≤ fuel)%nat →
         fetch_all_feedback date_parse py_int fuel client feedback_type entries_per_page
           = Some out)
    ∧ ((client (mkRequest feedback_type entries_per_page N) = Fails ConnectionError
        ∧ out = Return rows)
       ∨ (∃ e, e ≠ ConnectionError
             ∧ client (mkRequest feedback_type entries_per_page N) = Fails e
             ∧ out = Raise e)
       ∨ (∃ data, client (mkRequest feedback_type entries_per_page N) = Responds data
            ∧ ((∃ e, details_of data = Raise e ∧ out = Raise e)
               ∨ (∃ details, details_of data = Return details ∧ truthy details = false
                    ∧ out = Return rows)
               ∨ (∃ details e, details_of data = Return details ∧ truthy details = true
                    ∧ total_pages_of py_int data N = Raise e ∧ out = Raise e)
               ∨ (∃ details total, details_of data = Return details
                    ∧ truthy details = true
                    ∧ total_pages_of py_int data N = Return total
                    ∧ (total ≤ N)%Z
                    ∧ out = Return (rows ++ (make_row date_parse <$> as_list details)))))).
Proof.
  intros HB Hint.
  assert (Hlast : asks_for_more date_parse py_int client feedback_type entries_per_page B
                  = false).
  { apply asks_for_more_false_iff.
    destruct (client (mkRequest feedback_type entries_per_page B)) as [e|data] eqn:Hclient;
      [by eauto|].
    right. exists data. split; [done|].
    destruct (details_of data) as [details|e] eqn:Hdetails; [|by eauto].
    destruct (truthy details) eqn:Htruthy; [|by eauto 6].
    destruct (total_pages_of py_int data B) as [total|e] eqn:Htotal; [|by eauto 6].
    right. right. right. exists total. split; [done|].
    unfold total_pages_of in Htotal.
    destruct (PaginationResult data) as [| |[| |s]]; try (injection Htotal as <-; lia);
      try done.
    destruct (py_int s) as [n|] eqn:Hn; [|done]. injection Htotal as <-. by eapply Hint. }
  destruct (first_last_page date_parse py_int client feedback_type entries_per_page
              (Z.to_nat (B - 1)) 1) as (k & Hk & Hbefore & Hstop).
  { by replace (1 + Z.of_nat (Z.to_nat (B - 1)))%Z with B by lia. }
  destruct (last_page_outcome date_parse py_int client feedback_type entries_per_page
              (1 + Z.of_nat k)
              (seqZ 1 (Z.of_nat k)
                 ≫= page_rows date_parse client feedback_type entries_per_page)
              0 Hstop) as (out & Hout & Hcases).
  exists (1 + Z.of_nat k)%Z, out,
    (seqZ 1 (Z.of_nat k) ≫= page_rows date_parse client feedback_type entries_per_page).
  split; [lia|]. split; [by replace (1 + Z.of_nat k - 1)%Z with (Z.of_nat k) by lia|].
  split; [|done].
  intros fuel Hfuel. unfold fetch_all_feedback.
  replace fuel with (k + S (fuel - S k))%nat by lia.
  rewrite fetch_loop_pages by done. rewrite app_nil_l.
  eapply fetch_loop_more_fuel; [exact Hout|lia].
Qed.

Lemma fetch_always_ends_witness :
  ∃ (N : Z) (out : res (list RawFeedbackRow)) (rows : list RawFeedbackRow),
    (1 ≤ N ≤ 10 ^ Z.of_nat max_str_digits)%Z
    ∧ rows = seqZ 1 (N - 1) ≫= page_rows iso_parse failing_client "FeedbackReceived" 200
    ∧ (∀ fuel, (Z.to_nat N ≤ fuel)%nat →
         fetch_all_feedback iso_parse int_decimal fuel failing_client "FeedbackReceived" 200
           = Some out)
    ∧ ((failing_client (mkRequest "FeedbackReceived" 200 N) = Fails ConnectionError
        ∧ out = Return rows)
       ∨ (∃ e, e ≠ ConnectionError
             ∧ failing_client (mkRequest "FeedbackReceived" 200 N) = Fails e
             ∧ out = Raise e)
       ∨ (∃ data, failing_client (mkRequest "FeedbackReceived" 200 N) = Responds data
            ∧ ((∃ e, details_of data = Raise e ∧ out = Raise e)
               ∨ (∃ details, details_of data = Return details ∧ truthy details = false
                    ∧ out = Return rows)
               ∨ (∃ details e, details_of data = Return details ∧ truthy details = true
                    ∧ total_pages_of int_decimal data N = Raise e ∧ out = Raise e)
               ∨ (∃ details total, details_of data = Return details
                    ∧ truthy details = true
                    ∧ total_pages_of int_decimal data N = Return total
                    ∧ (total ≤ N)%Z
                    ∧ out = Return (rows ++ (make_row iso_parse <$> as_list details)))))).
Proof.
  apply (fetch_always_ends iso_parse int_decimal failing_client "FeedbackReceived" 200
           (10 ^ Z.of_nat max_str_digits)).
  - assert (0 < 10 ^ Z.of_nat max_str_digits)%Z by (apply Z.pow_pos_nonneg; lia). lia.
  - apply int_decimal_bound.
Defined.

(** C6, as stated, fails: the first page reports five pages, the second has
    no entries; the loop stops at page 2, below the total of the last
    page count it read, and does not go on to page 3. *)
Lemma empty_page_stops_below_the_total :
  short_client (mkRequest "FeedbackReceived" 200 1) = page_of [great_fb] "5"
  ∧ short_client (mkRequest "FeedbackReceived" 200 2) = page_of [] "5"
  ∧ int_decimal "5" = Some 5%Z
  ∧ fetch_all_feedback iso_parse int_decimal 2 short_client "FeedbackReceived" 200
      = Some (Return [make_row iso_parse great_fb])
  ∧ fetch_all_feedback iso_parse int_decimal 9 short_client "FeedbackReceived" 200
      = Some (Return [make_row iso_parse great_fb]).
Proof. repeat split; vm_compute; reflexivity. Qed.

(** C6, amended: after a successful page response with a non-empty detail
    list, whose entries are appended, the loop reads the total from
    TotalNumberOfPages of that response: when it is present and an integer,
    the loop stops exactly when the page number is at least this total and
    otherwise goes on with the page number plus one; when the pagination
    metadata is absent the total is the page number itself and the loop
    stops. *)
Theorem pagination_test
    (date_parse : string → option timestamp) (py_int : string → option Z)
    (client : Trading) (feedback_type : string) (entries_per_page : Z)
    (page : Z) (all_rows : list RawFeedbackRow) (fuel : nat)
    (data : response) (details : option FeedbackDetail_t) :
  client (mkRequest feedback_type entries_per_page page) = Responds data →
  details_of data = Return details →
  truthy details = true →
  (∀ s total_pages,
     PaginationResult data = Present (Present s) → py_int s = Some total_pages →
     ((total_pages ≤ page)%Z ↔
        loop_body date_parse py_int client feedback_type entries_per_page page all_rows
          = Break (all_rows ++ (make_row date_parse <$> as_list details)))
     ∧ ((page < total_pages)%Z ↔
        loop_body date_parse py_int client feedback_type entries_per_page page all_rows
          = Continue (page + 1) (all_rows ++ (make_row date_parse <$> as_list details)))
     ∧ ((total_pages ≤ page)%Z →
        fetch_loop date_parse py_int (S fuel) client feedback_type entries_per_page
          page all_rows
          = Some (Return (all_rows ++ (make_row date_parse <$> as_list details))))
     ∧ ((page < total_pages)%Z →
        fetch_loop date_parse py_int (S fuel) client feedback_type entries_per_page
          page all_rows
          = fetch_loop date_parse py_int fuel client feedback_type entries_per_page
              (page + 1) (all_rows ++ (make_row date_parse <$> as_list details))))
  ∧ (PaginationResult data = Absent ∨ PaginationResult data = Null
     ∨ PaginationResult data = Present Absent →
     total_pages_of py_int data page = Return page
     ∧ loop_body date_parse py_int client feedback_type entries_per_page page all_rows
         = Break (all_rows ++ (make_row date_parse <$> as_list details))
     ∧ fetch_loop date_parse py_int (S fuel) client feedback_type entries_per_page
         page all_rows
         = Some (Return (all_rows ++ (make_row date_parse <$> as_list details)))).
Proof.
  intros Hclient Hdetails Htruthy.
  assert (Hbody : ∀ total_pages, total_pages_of py_int data page = Return total_pages →
    loop_body date_parse py_int client feedback_type entries_per_page page all_rows =
      if (page >=? total_pages)%Z
      then Break (all_rows ++ (make_row date_parse <$> as_list details))
      else Continue (page + 1) (all_rows ++ (make_row date_parse <$> as_list details))).
  { intros total_pages Htotal. unfold loop_body.
    by rewrite Hclient, Hdetails, Htruthy, Htotal. }
  split.
  - intros s total_pages Hs Hint.
    assert (Htotal : total_pages_of py_int data page = Return total_pages).
    { unfold total_pages_of. by rewrite Hs, Hint. }
    cbn [fetch_loop]. rewrite (Hbody _ Htotal).
    destruct (page >=? total_pages)%Z eqn:Hge.
    + apply Z.geb_le in Hge. repeat split; try done; try lia; discriminate.
    + assert (page < total_pages)%Z as Hlt.
      { destruct (Z.lt_ge_cases page total_pages) as [|Hle]; [done|].
        apply Z.geb_le in Hle. congruence. }
      repeat split; try done; try lia; discriminate.
  - intros Habsent.
    assert (Htotal : total_pages_of py_int data page = Return page).
    { unfold total_pages_of. by destruct Habsent as [->|[->| ->]]. }
    cbn [fetch_loop]. rewrite (Hbody _ Htotal).
    assert ((page >=? page)%Z = true) as -> by (apply Z.geb_le; lia).
    done.
Qed.

Lemma pagination_test_witness :
  fetch_loop iso_parse int_decimal 3 failing_client "FeedbackReceived" 200 1 []
    = fetch_loop iso_parse int_decimal 2 failing_client "FeedbackReceived" 200 2
        [make_row iso_parse great_fb]
  ∧ fetch_loop iso_parse int_decimal 1 single_object_client "FeedbackReceived" 200 1 []
    = Some (Return [make_row iso_parse great_fb]).
Proof.
  split.
  - refine (proj2 (proj2 (proj2 (proj1
      (pagination_test iso_parse int_decimal failing_client "FeedbackReceived" 200
         1 [] 2
         (mkResponse (Present (Present (Collection [great_fb]))) (Present (Present "3")))
         (Some (Collection [great_fb])) _ _ _) "3" 3%Z _ _))) _);
      [reflexivity..|lia].
  - refine (proj1 (proj2 (proj2 (proj1
      (pagination_test iso_parse int_decimal single_object_client "FeedbackReceived" 200
         1 [] 0
         (mkResponse (Present (Present (Object great_fb))) (Present (Present "1")))
         (Some (Object great_fb)) _ _ _) "1" 1%Z _ _))) _);
      [reflexivity..|lia].
Defined.

(** C7, as stated, fails: a page whose [FeedbackDetail] is an object with no
    fields ends the fetch with no row, while the one-element collection
    holding that object yields a row. *)
Lemma empty_object_is_not_a_collection :
  single_object (empty_object_client (mkRequest "FeedbackReceived" 200 1)) = Some ∅
  ∧ fetch_all_feedback iso_parse int_decimal 1 empty_object_client "FeedbackReceived" 200
      = Some (Return [])
  ∧ fetch_all_feedback iso_parse int_decimal 1 (as_collection empty_object_client)
      "FeedbackReceived" 200
      = Some (Return [make_row iso_parse ∅]).
Proof. repeat split; vm_compute; reflexivity. Qed.

Lemma as_collection_loop_body
    (date_parse : string → option timestamp) (py_int : string → option Z)
    (client : Trading) (feedback_type : string) (entries_per_page : Z)
    (page : Z) (all_rows : list RawFeedbackRow) :
  (∀ req fb, single_object (client req) = Some fb → fb ≠ ∅) →
  loop_body date_parse py_int (as_collection client) feedback_type entries_per_page
    page all_rows
  = loop_body date_parse py_int client feedback_type entries_per_page page all_rows.
Proof.
  intros Hne. unfold loop_body, as_collection.
  specialize (Hne (mkRequest feedback_type entries_per_page page)).
  destruct (client _) as [e|[[| |[| |[fb|fbs]]] pagination]]; try done.
  specialize (Hne fb eq_refl).
  unfold details_of, truthy, total_pages_of. cbn [FeedbackDetailArray PaginationResult as_list].
  rewrite bool_decide_false by done.
  by rewrite bool_decide_false by done.
Qed.

(** C7, amended: when every single object a client answers with has at
    least one field, the fetch gives the same outcome as with the client
    that answers with the one-element collection of that object. *)
Theorem single_object_is_one_element_collection
    (date_parse : string → option timestamp) (py_int : string → option Z)
    (client : Trading) (feedback_type : string) (entries_per_page : Z) (fuel : nat) :
  (∀ req fb, single_object (client req) = Some fb → fb ≠ ∅) →
  fetch_all_feedback date_parse py_int fuel (as_collection client)
    feedback_type entries_per_page
  = fetch_all_feedback date_parse py_int fuel client feedback_type entries_per_page.
Proof.
  intros Hne. unfold fetch_all_feedback.
  generalize 1%Z as page. generalize (@nil RawFeedbackRow) as all_rows.
  induction fuel as [|fuel IH]; intros all_rows page; [done|].
  cbn [fetch_loop]. rewrite as_collection_loop_body by done.
  destruct (loop_body _ _ client _ _ _ _); [done| |done].
  apply IH.
Qed.

Lemma single_object_is_one_element_collection_witness :
  fetch_all_feedback iso_parse int_decimal 1 (as_collection single_object_client)
    "FeedbackReceived" 200
  = fetch_all_feedback iso_parse int_decimal 1 single_object_client "FeedbackReceived" 200.
Proof.
  apply (single_object_is_one_element_collection iso_parse int_decimal
           single_object_client "FeedbackReceived" 200 1).
  intros req fb [= <-]. vm_compute. discriminate.
Defined.

(** C10, as stated, fails: a page with no entries ends the loop before its
    page count is read, so a count that is not a number raises nothing
    there and the rows of the earlier page are returned. *)
Lemma unread_page_count_returns_rows :
  odd_total_client (mkRequest "FeedbackReceived" 200 2) = page_of [] "abc"
  ∧ int_decimal "abc" = None
  ∧ fetch_all_feedback iso_parse int_decimal 2 odd_total_client "FeedbackReceived" 200
      = Some (Return [make_row iso_parse great_fb]).
Proof. repeat split; vm_compute; reflexivity. Qed.

(** C10, amended: the function recovers from the client's ConnectionError
    only.  When the loop gets to a page N on which the client raises another
    exception, or which has entries and a page count that is present but is
    not an integer, that exception or the one of the conversion leaves the
    function, and the rows of the earlier pages are not returned. *)
Theorem only_transport_errors_are_recovered
    (date_parse : string → option timestamp) (py_int : string → option Z)
    (client : Trading) (feedback_type : string) (entries_per_page : Z)
    (N : Z) (fuel : nat) :
  (1 ≤ N)%Z →
  (∀ p, (1 ≤ p < N)%Z →
        asks_for_more date_parse py_int client feedback_type entries_per_page p = true) →
  (Z.to_nat N ≤ fuel)%nat →
  (∀ e, e ≠ ConnectionError →
        client (mkRequest feedback_type entries_per_page N) = Fails e →
        fetch_all_feedback date_parse py_int fuel client feedback_type entries_per_page
          = Some (Raise e))
  ∧ (∀ data details s,
        client (mkRequest feedback_type entries_per_page N) = Responds data →
        details_of data = Return details → truthy details = true →
        PaginationResult data = Present (Present s) → py_int s = None →
        fetch_all_feedback date_parse py_int fuel client feedback_type entries_per_page
          = Some (Raise ValueError))
  ∧ (∀ data details,
        client (mkRequest feedback_type entries_per_page N) = Responds data →
        details_of data = Return details → truthy details = true →
        PaginationResult data = Present Null →
        fetch_all_feedback date_parse py_int fuel client feedback_type entries_per_page
          = Some (Raise TypeError)).
Proof.
  intros HN Hmore Hfuel.
  assert (Hrun : ∀ e,
    (∀ all_rows, loop_body date_parse py_int client feedback_type entries_per_page N all_rows
                 = Escapes e) →
    fetch_all_feedback date_parse py_int fuel client feedback_type entries_per_page
      = Some (Raise e)).
  { intros e Hbody. unfold fetch_all_feedback.
    replace fuel with (Z.to_nat (N - 1) + S (fuel - Z.to_nat N))%nat by lia.
    rewrite fetch_loop_pages by (intros p Hp; apply Hmore; lia).
    rewrite Z2Nat.id by lia.
    replace (1 + (N - 1))%Z with N by lia.
    cbn [fetch_loop]. by rewrite Hbody. }
  split; [|split].
  - intros e Hne Hfail. apply Hrun. intros all_rows.
    unfold loop_body. rewrite Hfail. by destruct e.
  - intros data details s Hclient Hdetails Htruthy Hpag Hint. apply Hrun. intros all_rows.
    unfold loop_body. rewrite Hclient, Hdetails, Htruthy. simpl.
    unfold total_pages_of. by rewrite Hpag, Hint.
  - intros data details Hclient Hdetails Htruthy Hpag. apply Hrun. intros all_rows.
    unfold loop_body. rewrite Hclient, Hdetails, Htruthy. simpl.
    unfold total_pages_of. by rewrite Hpag.
Qed.

Lemma only_transport_errors_are_recovered_witness :
  fetch_all_feedback iso_parse int_decimal 2 bad_total_client "FeedbackReceived" 200
    = Some (Raise ValueError).
Proof.
  refine (proj1 (proj2
    (only_transport_errors_are_recovered iso_parse int_decimal bad_total_client
       "FeedbackReceived" 200 2 2 _ _ _))
    (mkResponse (Present (Present (Collection [vague_fb]))) (Present (Present "abc")))
    (Some (Collection [vague_fb])) "abc" _ _ _ _ _);
    try reflexivity; try lia.
  intros p Hp. assert (p = 1)%Z as -> by lia. vm_compute. reflexivity.
Defined.


(** * Further properties *)

(** ** The transform as a whole *)

Lemma rated_app (df1 df2 : list RawFeedbackRow) :
  rated (df1 ++ df2) = rated df1 ++ rated df2.
Proof. unfold rated. apply omap_app. Qed.

(** X1: the lines of the output come from a sub-sequence of the input rows,
    taken in the order of the input, one line per kept row: the line of the
    row, or that line without its date where the conversion of the column
    took the timestamp; every kept row passes the selection and has a
    rating. *)
Theorem export_keeps_input_order
    (rows : list RawFeedbackRow) (base : string) (out : list ReviewExportRow) :
  build_ebay_reviews_export rows base = Return out →
  ∃ kept : list (RawFeedbackRow * Z),
    kept.*1 `sublist_of` rows
    ∧ Forall2 (λ rk e,
          e = export_row (rstrip_slash base) rk
          ∨ e = export_row (rstrip_slash base) (set_comment_time rk.1 None, rk.2))
        kept out
    ∧ Forall (λ rk, seller_with_comment rk.1 ∧ map_rating rk.1 = Some rk.2) kept.
Proof.
  rewrite build_ebay_reviews_export_unfold.
  repeat case_decide; try discriminate.
  intros [= <-].
  exists (rated (filter seller_with_comment rows)). split; [|split].
  - rewrite rated_filter_fst. apply sublist_filter.
  - apply Forall2_fmap_r.
    eapply Forall2_impl; [apply rated_selection_coerced|].
    intros [r k] [r' k'] (Hrow & Hk & _). simpl in Hrow, Hk. subst k'.
    destruct Hrow as [-> | ->]; [by left|by right].
  - apply Forall_forall. intros [r k] Hrk.
    apply elem_of_rated in Hrk as [Hsel Hk].
    apply list_elem_of_filter in Hsel as [Hsel _]. by split.
Qed.

Lemma export_keeps_input_order_witness :
  ∃ kept : list (RawFeedbackRow * Z),
    kept.*1 `sublist_of` [buyer_row; undated_row; great_row; naive_row]
    ∧ Forall2 (λ rk e,
          e = export_row (rstrip_slash "https://www.ebay.co.uk/") rk
          ∨ e = export_row (rstrip_slash "https://www.ebay.co.uk/")
                  (set_comment_time rk.1 None, rk.2))
        kept
        [export_row "https://www.ebay.co.uk" (undated_row, 3%Z);
         export_row "https://www.ebay.co.uk" (great_row, 5%Z);
         export_row "https://www.ebay.co.uk" (set_comment_time naive_row None, 1%Z)]
    ∧ Forall (λ rk, seller_with_comment rk.1 ∧ map_rating rk.1 = Some rk.2) kept.
Proof.
  apply (export_keeps_input_order [buyer_row; undated_row; great_row; naive_row]
           "https://www.ebay.co.uk/").
  vm_compute. reflexivity.
Defined.

Lemma same_zone_app_l (rows1 rows2 : list RawFeedbackRow) :
  same_zone (rows1 ++ rows2) → same_zone rows1.
Proof.
  intros Hzone r1 r2 t1 t2 Hr1 Hr2. apply Hzone; apply elem_of_app; by left.
Qed.

Lemma same_zone_app_r (rows1 rows2 : list RawFeedbackRow) :
  same_zone (rows1 ++ rows2) → same_zone rows2.
Proof.
  intros Hzone r1 r2 t1 t2 Hr1 Hr2. apply Hzone; apply elem_of_app; by right.
Qed.

Lemma same_zone_without (rows1 rows2 : list RawFeedbackRow) (r : RawFeedbackRow) :
  same_zone (rows1 ++ r :: rows2) → same_zone (rows1 ++ rows2).
Proof.
  intros Hzone r1 r2 t1 t2 Hr1 Hr2.
  apply Hzone; rewrite elem_of_app, elem_of_cons;
    [apply elem_of_app in Hr1|apply elem_of_app in Hr2]; tauto.
Qed.

(** X2: in an input whose timestamps have one zone, a row that fails the
    Seller/comment selection changes nothing in the outcome, as long as it
    is not the only row of the input. *)
Theorem unselected_row_is_ignored
    (rows1 rows2 : list RawFeedbackRow) (r : RawFeedbackRow) (base : string) :
  ¬ seller_with_comment r →
  same_zone (rows1 ++ r :: rows2) →
  rows1 ++ rows2 ≠ [] →
  build_ebay_reviews_export (rows1 ++ r :: rows2) base
    = build_ebay_reviews_export (rows1 ++ rows2) base.
Proof.
  intros Hr Hzone Hne.
  rewrite (build_same_zone (rows1 ++ r :: rows2)) by done.
  rewrite (build_same_zone (rows1 ++ rows2)) by by eapply same_zone_without.
  rewrite !filter_app, filter_cons_False by done.
  rewrite (decide_False (P := rows1 ++ r :: rows2 = [])) by (by destruct rows1).
  by rewrite (decide_False (P := rows1 ++ rows2 = [])) by done.
Qed.

Lemma unselected_row_is_ignored_witness :
  build_ebay_reviews_export ([great_row] ++ buyer_row :: [undated_row]) "https://www.ebay.co.uk"
    = build_ebay_reviews_export ([great_row] ++ [undated_row]) "https://www.ebay.co.uk".
Proof.
  apply unselected_row_is_ignored.
  - intros [Hrole _]. discriminate.
  - intros r1 r2 t1 t2 Hr1 Hr2 Ht1 Ht2.
    assert (Hutc : ∀ r t, r ∈ [great_row] ++ buyer_row :: [undated_row] →
              comment_time r = Some t → tzinfo t = Some 0%Z).
    { intros r t Hr Ht. simpl in Hr.
      repeat (apply elem_of_cons in Hr as [->|Hr]; [by inversion Ht|]).
      by apply elem_of_nil in Hr. }
    by rewrite (Hutc r1 t1), (Hutc r2 t2).
  - discriminate.
Defined.

(** X3: when the timestamps of two batches have one zone and
    the function returns a table for each batch, it returns for the two
    batches together the first table followed by the second. *)
Theorem export_of_batches
    (rows1 rows2 : list RawFeedbackRow) (base : string)
    (out1 out2 : list ReviewExportRow) :
  same_zone (rows1 ++ rows2) →
  build_ebay_reviews_export rows1 base = Return out1 →
  build_ebay_reviews_export rows2 base = Return out2 →
  build_ebay_reviews_export (rows1 ++ rows2) base = Return (out1 ++ out2).
Proof.
  intros Hzone.
  rewrite (build_same_zone rows1) by by eapply same_zone_app_l.
  rewrite (build_same_zone rows2) by by eapply same_zone_app_r.
  rewrite (build_same_zone (rows1 ++ rows2)) by done.
  repeat case_decide; try discriminate.
  - by destruct rows1.
  - exfalso. rewrite filter_app in *. by destruct (filter seller_with_comment rows1).
  - intros [= <-] [= <-]. by rewrite filter_app, rated_app, fmap_app.
Qed.

Lemma export_of_batches_witness :
  build_ebay_reviews_export ([great_row] ++ [buyer_row; undated_row]) "https://www.ebay.co.uk"
    = Return ([export_row "https://www.ebay.co.uk" (great_row, 5%Z)]
              ++ [export_row "https://www.ebay.co.uk" (undated_row, 3%Z)]).
Proof.
  apply export_of_batches; [|vm_compute; reflexivity..].
  intros r1 r2 t1 t2 Hr1 Hr2 Ht1 Ht2.
  assert (Hgreat : ∀ r t, r ∈ [great_row] ++ [buyer_row; undated_row] →
            comment_time r = Some t → tzinfo t = Some 0%Z).
  { intros r t Hr Ht. simpl in Hr.
    repeat (apply elem_of_cons in Hr as [->|Hr]; [by inversion Ht|]).
    by apply elem_of_nil in Hr. }
  by rewrite (Hgreat r1 t1), (Hgreat r2 t2).
Defined.

(** ** The base URL *)

Lemma append_nil (t : string) : "" +:+ t = t.
Proof. reflexivity. Qed.

Lemma append_cons (c : ascii) (s t : string) : String c s +:+ t = String c (s +:+ t).
Proof. reflexivity. Qed.

Lemma append_nil_r (s : string) : s +:+ "" = s.
Proof. induction s as [|c s IH]; [done|]. by rewrite append_cons, IH. Qed.

Lemma string_append_assoc (s t u : string) : (s +:+ t) +:+ u = s +:+ t +:+ u.
Proof.
  induction s as [|c s IH]; [by rewrite !append_nil|].
  by rewrite !append_cons, IH.
Qed.

Lemma rstrip_slash_snoc (s : string) : rstrip_slash (s +:+ "/") = rstrip_slash s.
Proof.
  induction s as [|c s IH]; [done|].
  rewrite append_cons. cbn [rstrip_slash]. by rewrite IH.
Qed.

Lemma rstrip_slash_slashes (s : string) (n : nat) :
  rstrip_slash (s +:+ slashes n) = rstrip_slash s.
Proof.
  revert s. induction n as [|n IH]; intros s.
  - cbn [slashes]. by rewrite append_nil_r.
  - change (slashes (S n)) with ("/" +:+ slashes n).
    rewrite <- (string_append_assoc s "/" (slashes n)).
    rewrite IH. apply rstrip_slash_snoc.
Qed.

(** What [rstrip_slash] removes is a run of slashes. *)
Lemma rstrip_slash_removes_slashes (s : string) :
  ∃ n, s = rstrip_slash s +:+ slashes n.
Proof.
  induction s as [|c s [n IH]]; [by exists 0%nat|].
  cbn [rstrip_slash].
  destruct (rstrip_slash s) as [|c' t] eqn:Hs.
  - rewrite append_nil in IH. case_decide as Hc.
    + subst c. exists (S n). rewrite append_nil. cbn [slashes]. by rewrite <- IH.
    + exists n. rewrite append_cons, append_nil. by rewrite <- IH.
  - exists n. rewrite append_cons. by rewrite <- IH.
Qed.

(** What [rstrip_slash] leaves does not end with a slash. *)
Lemma rstrip_slash_no_trailing_slash (s t : string) : rstrip_slash s ≠ t +:+ "/".
Proof.
  revert t. induction s as [|c s IH]; intros t.
  - destruct t; [rewrite append_nil|rewrite append_cons]; discriminate.
  - cbn [rstrip_slash].
    destruct (rstrip_slash s) as [|c' u] eqn:Hs.
    + case_decide as Hc.
      * destruct t; [rewrite append_nil|rewrite append_cons]; discriminate.
      * destruct t as [|d t]; [rewrite append_nil; congruence|].
        rewrite append_cons. intros [= -> Ht].
        destruct t; [rewrite append_nil in Ht|rewrite append_cons in Ht]; discriminate.
    + destruct t as [|d t]; [rewrite append_nil; congruence|].
      rewrite append_cons. intros [= -> Hu]. by apply (IH t).
Qed.

(** X4: slashes at the end of the base URL do not matter: the outcome is
    the same with any number of them added. *)
Theorem trailing_slashes_do_not_matter
    (rows : list RawFeedbackRow) (base : string) (n : nat) :
  build_ebay_reviews_export rows (base +:+ slashes n)
    = build_ebay_reviews_export rows base.
Proof.
  rewrite !build_ebay_reviews_export_unfold. by rewrite rstrip_slash_slashes.
Qed.

(** X5: the product URL of an output line is empty when the row has no item
    id, and otherwise is the base URL without its trailing slashes,
    followed by /itm/ and the item id; so no URL has a doubled slash
    before itm. *)
Theorem product_urls_have_one_slash
    (rows : list RawFeedbackRow) (base : string) (out : list ReviewExportRow) :
  build_ebay_reviews_export rows base = Return out →
  Forall (λ e, product_url e = ""
               ∨ ∃ (b id : string) (n : nat),
                   id ≠ "" ∧ base = b +:+ slashes n ∧ (∀ t, b ≠ t +:+ "/")
                   ∧ product_url e = b +:+ "/itm/" +:+ id) out.
Proof.
  rewrite build_ebay_reviews_export_unfold.
  repeat case_decide; try discriminate.
  intros [= <-]. apply Forall_forall. intros e He.
  apply list_elem_of_fmap in He as ([r k] & -> & _).
  cbn [export_row product_url].
  unfold item_url. case_decide as Hid; [by left|right].
  destruct (rstrip_slash_removes_slashes base) as [n Hn].
  exists (rstrip_slash base), (item_id r), n.
  repeat split; try done. apply rstrip_slash_no_trailing_slash.
Qed.

Lemma product_urls_have_one_slash_witness :
  Forall (λ e, product_url e = ""
               ∨ ∃ (b id : string) (n : nat),
                   id ≠ "" ∧ "https://www.ebay.co.uk//" = b +:+ slashes n
                   ∧ (∀ t, b ≠ t +:+ "/")
                   ∧ product_url e = b +:+ "/itm/" +:+ id)
    [export_row "https://www.ebay.co.uk" (great_row, 5%Z);
     export_row "https://www.ebay.co.uk" (undated_row, 3%Z)].
Proof.
  apply (product_urls_have_one_slash [great_row; undated_row] "https://www.ebay.co.uk//").
  vm_compute. reflexivity.
Defined.

(** X6: the output has one line for every input row that passes the
    selection and has a comment type of the rating table, and no other
    line; it never has more lines than the input has rows. *)
Theorem export_line_count
    (rows : list RawFeedbackRow) (base : string) (out : list ReviewExportRow) :
  build_ebay_reviews_export rows base = Return out →
  length out
    = length (filter (λ r, seller_with_comment r ∧ is_Some (map_rating r)) rows)
  ∧ (length out ≤ length rows)%nat.
Proof.
  rewrite build_ebay_reviews_export_unfold.
  repeat case_decide; try discriminate.
  intros [= <-]. rewrite length_fmap.
  rewrite <- (Forall2_length _ _ _ (rated_selection_coerced rows)).
  rewrite <- (length_fmap fst (rated _)), rated_filter_fst.
  split; [done|]. apply length_filter.
Qed.

Lemma export_line_count_witness :
  length [export_row "https://www.ebay.co.uk" (undated_row, 3%Z);
          export_row "https://www.ebay.co.uk" (great_row, 5%Z)]
    = length (filter (λ r, seller_with_comment r ∧ is_Some (map_rating r))
                [buyer_row; undated_row; withdrawn_row; great_row])
  ∧ (length [export_row "https://www.ebay.co.uk" (undated_row, 3%Z);
             export_row "https://www.ebay.co.uk" (great_row, 5%Z)]
     ≤ length [buyer_row; undated_row; withdrawn_row; great_row])%nat.
Proof.
  apply (export_line_count [buyer_row; undated_row; withdrawn_row; great_row]
           "https://www.ebay.co.uk").
  vm_compute. reflexivity.
Defined.

(** ** The fetch as a whole *)

Section FetchRuns.

Variable date_parse : string → option timestamp.
Variable py_int : string → option Z.
Variable client : Trading.
Variable feedback_type : string.
Variable entries_per_page : Z.

Local Abbreviation body := (loop_body date_parse py_int client feedback_type entries_per_page).
Local Abbreviation loop := (λ fuel, fetch_loop date_parse py_int fuel client feedback_type entries_per_page).
Local Abbreviation more := (asks_for_more date_parse py_int client feedback_type entries_per_page).
Local Abbreviation rows_of := (page_rows date_parse client feedback_type entries_per_page).

(** The three ways a turn can end, with the rows it leaves. *)
Lemma loop_body_cases (page : Z) (all_rows : list RawFeedbackRow) :
  match body page all_rows with
  | Break rows => more page = false ∧ rows = all_rows ++ rows_of page
  | Continue page' rows =>
      more page = true ∧ page' = (page + 1)%Z ∧ rows = all_rows ++ rows_of page
  | Escapes _ => more page = false
  end.
Proof.
  rewrite loop_body_appends. unfold asks_for_more.
  pose proof (loop_body_rows date_parse py_int client feedback_type entries_per_page page)
    as Hrows.
  destruct (body page []) as [rows|page' rows|e]; [|destruct Hrows|]; by subst.
Qed.

(** A run that returns has walked through some pages that asked for more,
    met a page that did not, and gathered their rows in page order. *)
Lemma fetch_loop_returns (fuel : nat) (page : Z)
    (all_rows rows : list RawFeedbackRow) :
  loop fuel page all_rows = Some (Return rows) →
  ∃ n : nat, (n < fuel)%nat
    ∧ (∀ p, (page ≤ p < page + Z.of_nat n)%Z → more p = true)
    ∧ more (page + Z.of_nat n)%Z = false
    ∧ rows = all_rows ++ (seqZ page (Z.of_nat (S n)) ≫= rows_of).
Proof.
  revert page all_rows.
  induction fuel as [|fuel IH]; intros page all_rows Hrun; [done|].
  cbn [fetch_loop] in Hrun.
  pose proof (loop_body_cases page all_rows) as Hcases.
  destruct (body page all_rows) as [rows'|page' rows'|e]; [| |done].
  - destruct Hcases as [Hmore ->]. injection Hrun as <-.
    exists 0%nat. repeat split.
    + lia.
    + intros p Hp. lia.
    + by rewrite Z.add_0_r.
    + change (Z.of_nat 1) with 1%Z. rewrite (seqZ_cons page 1) by lia.
      change (Z.pred 1) with 0%Z. rewrite seqZ_nil by lia.
      cbn [mbind list_bind]. by rewrite app_nil_r.
  - destruct Hcases as (Hmore & -> & ->).
    apply IH in Hrun as (n & Hn & Hbefore & Hlast & ->).
    exists (S n). repeat split.
    + lia.
    + intros p Hp. destruct (decide (p = page)) as [->|Hne]; [done|].
      apply Hbefore. lia.
    + by replace (page + Z.of_nat (S n))%Z with (page + 1 + Z.of_nat n)%Z by lia.
    + rewrite (seqZ_cons page (Z.of_nat (S (S n)))) by lia.
      cbn [mbind list_bind]. rewrite <- (assoc_L (++)).
      replace (Z.pred (Z.of_nat (S (S n)))) with (Z.of_nat (S n)) by lia.
      by replace (Z.succ page) with (page + 1)%Z by lia.
Qed.

(** An exception that leaves a run was raised by the client, or is one of
    the three that reading a response can raise. *)
Lemma fetch_loop_raises (fuel : nat) (page : Z) (all_rows : list RawFeedbackRow) (e : exn) :
  loop fuel page all_rows = Some (Raise e) →
  (∃ p, (page ≤ p)%Z ∧ e ≠ ConnectionError
        ∧ client (mkRequest feedback_type entries_per_page p) = Fails e)
  ∨ e = AttributeError ∨ e = TypeError ∨ e = ValueError.
Proof.
  revert page all_rows.
  induction fuel as [|fuel IH]; intros page all_rows Hrun; [done|].
  cbn [fetch_loop] in Hrun.
  pose proof (loop_body_cases page all_rows) as Hcases.
  destruct (body page all_rows) as [rows'|page' rows'|e'] eqn:Hbody; [done| |].
  - destruct Hcases as (_ & -> & _).
    apply IH in Hrun as [(p & Hp & Hne & Hfail)|Hread]; [left|by right].
    exists p. split; [lia|done].
  - injection Hrun as ->. clear Hcases.
    unfold loop_body in Hbody.
    destruct (client _) as [e0|data] eqn:Hclient.
    + left. exists page. split; [lia|].
      destruct e0; inversion Hbody; by subst.
    + right. unfold details_of, total_pages_of in Hbody.
      repeat (case_match; simplify_eq/=); auto.
Qed.

End FetchRuns.

(** X7: when the fetch returns, its rows are the rows of pages 1 to n+1 in
    page order, where pages 1 to n each asked for a further page and page
    n+1 is the first that did not; no row is lost, repeated or reordered. *)
Theorem fetched_rows_are_the_pages
    (date_parse : string → option timestamp) (py_int : string → option Z)
    (client : Trading) (feedback_type : string) (entries_per_page : Z)
    (fuel : nat) (rows : list RawFeedbackRow) :
  fetch_all_feedback date_parse py_int fuel client feedback_type entries_per_page
    = Some (Return rows) →
  ∃ n : nat, (n < fuel)%nat
    ∧ (∀ p, (1 ≤ p ≤ Z.of_nat n)%Z →
            asks_for_more date_parse py_int client feedback_type entries_per_page p = true)
    ∧ asks_for_more date_parse py_int client feedback_type entries_per_page
        (Z.of_nat n + 1)%Z = false
    ∧ rows = seqZ 1 (Z.of_nat n + 1)
               ≫= page_rows date_parse client feedback_type entries_per_page.
Proof.
  intros Hrun. unfold fetch_all_feedback in Hrun.
  apply fetch_loop_returns in Hrun as (n & Hn & Hbefore & Hlast & ->).
  exists n. repeat split; [done| | |].
  - intros p Hp. apply Hbefore. lia.
  - by replace (Z.of_nat n + 1)%Z with (1 + Z.of_nat n)%Z by lia.
  - by replace (Z.of_nat n + 1)%Z with (Z.of_nat (S n)) by lia.
Qed.

Lemma fetched_rows_are_the_pages_witness :
  ∃ n : nat, (n < 5)%nat
    ∧ (∀ p, (1 ≤ p ≤ Z.of_nat n)%Z →
            asks_for_more iso_parse int_decimal failing_client "FeedbackReceived" 200 p = true)
    ∧ asks_for_more iso_parse int_decimal failing_client "FeedbackReceived" 200
        (Z.of_nat n + 1)%Z = false
    ∧ [make_row iso_parse great_fb; make_row iso_parse vague_fb]
      = seqZ 1 (Z.of_nat n + 1)
          ≫= page_rows iso_parse failing_client "FeedbackReceived" 200.
Proof.
  apply (fetched_rows_are_the_pages iso_parse int_decimal failing_client
           "FeedbackReceived" 200 5).
  vm_compute. reflexivity.
Defined.

Lemma loop_body_same_reply
    (date_parse : string → option timestamp) (py_int : string → option Z)
    (client1 client2 : Trading) (feedback_type : string) (entries_per_page : Z)
    (page : Z) (all_rows : list RawFeedbackRow) :
  client1 (mkRequest feedback_type entries_per_page page)
    = client2 (mkRequest feedback_type entries_per_page page) →
  loop_body date_parse py_int client1 feedback_type entries_per_page page all_rows
    = loop_body date_parse py_int client2 feedback_type entries_per_page page all_rows.
Proof. intros Hsame. unfold loop_body. by rewrite Hsame. Qed.

Lemma fetch_loop_same_replies
    (date_parse : string → option timestamp) (py_int : string → option Z)
    (client1 client2 : Trading) (feedback_type : string) (entries_per_page : Z)
    (fuel : nat) (page : Z) (all_rows : list RawFeedbackRow) :
  (∀ p, (page ≤ p < page + Z.of_nat fuel)%Z →
        client1 (mkRequest feedback_type entries_per_page p)
          = client2 (mkRequest feedback_type entries_per_page p)) →
  fetch_loop date_parse py_int fuel client1 feedback_type entries_per_page page all_rows
    = fetch_loop date_parse py_int fuel client2 feedback_type entries_per_page page all_rows.
Proof.
  revert page all_rows.
  induction fuel as [|fuel IH]; intros page all_rows Hsame; [done|].
  cbn [fetch_loop].
  rewrite (loop_body_same_reply _ _ client1 client2) by (apply Hsame; lia).
  pose proof (loop_body_cases date_parse py_int client2 feedback_type entries_per_page
                page all_rows) as Hcases.
  destruct (loop_body _ _ client2 _ _ _ _) as [rows|page' rows|e]; [done| |done].
  destruct Hcases as (_ & -> & _).
  apply IH. intros p Hp. apply Hsame. lia.
Qed.

(** X8: within a bound of n turns the fetch asks the client for pages 1 to n
    only, each with the caller's feedback type and page size: two clients
    that answer these requests alike give the same outcome. *)
Theorem fetch_reads_only_its_pages
    (date_parse : string → option timestamp) (py_int : string → option Z)
    (client1 client2 : Trading) (feedback_type : string) (entries_per_page : Z)
    (fuel : nat) :
  (∀ p, (1 ≤ p ≤ Z.of_nat fuel)%Z →
        client1 (mkRequest feedback_type entries_per_page p)
          = client2 (mkRequest feedback_type entries_per_page p)) →
  fetch_all_feedback date_parse py_int fuel client1 feedback_type entries_per_page
    = fetch_all_feedback date_parse py_int fuel client2 feedback_type entries_per_page.
Proof.
  intros Hsame. unfold fetch_all_feedback.
  apply fetch_loop_same_replies. intros p Hp. apply Hsame. lia.
Qed.

Lemma fetch_reads_only_its_pages_witness :
  fetch_all_feedback iso_parse int_decimal 1 odd_total_client "FeedbackReceived" 200
    = fetch_all_feedback iso_parse int_decimal 1 bad_total_client "FeedbackReceived" 200.
Proof.
  apply fetch_reads_only_its_pages.
  intros p Hp. assert (p = 1)%Z as -> by lia. reflexivity.
Defined.

(** X9: when no page count that a response carries is above B, the fetch
    ends within B turns, whatever else the client does; responses without
    a page count are not restricted. *)
Theorem fetch_ends_within_reported_pages
    (date_parse : string → option timestamp) (py_int : string → option Z)
    (client : Trading) (feedback_type : string) (entries_per_page : Z) (B : Z) :
  (1 ≤ B)%Z →
  (∀ p data s total,
     client (mkRequest feedback_type entries_per_page p) = Responds data →
     PaginationResult data = Present (Present s) →
     py_int s = Some total → (total ≤ B)%Z) →
  ∃ out, ∀ fuel, (Z.to_nat B ≤ fuel)%nat →
    fetch_all_feedback date_parse py_int fuel client feedback_type entries_per_page
      = Some out.
Proof.
  intros HB Hbound.
  assert (Hlast : asks_for_more date_parse py_int client feedback_type entries_per_page B
                  = false).
  { apply asks_for_more_false_iff.
    destruct (client (mkRequest feedback_type entries_per_page B)) as [e|data] eqn:Hclient;
      [by eauto|].
    right. exists data. split; [done|].
    destruct (details_of data) as [details|e] eqn:Hdetails; [|by eauto].
    destruct (truthy details) eqn:Htruthy; [|by eauto 6].
    destruct (total_pages_of py_int data B) as [total|e] eqn:Htotal; [|by eauto 6].
    right. right. right. exists total. split; [done|].
    unfold total_pages_of in Htotal.
    destruct (PaginationResult data) as [| |[| |s]] eqn:Hpag;
      try (injection Htotal as <-; lia); try done.
    destruct (py_int s) as [n|] eqn:Hn; [|done]. injection Htotal as <-.
    by eapply Hbound. }
  destruct (fetch_loop_ends date_parse py_int client feedback_type entries_per_page
              (Z.to_nat (B - 1)) 1 []) as [out Hout].
  { by replace (1 + Z.of_nat (Z.to_nat (B - 1)))%Z with B by lia. }
  exists out. intros fuel Hfuel. unfold fetch_all_feedback.
  eapply fetch_loop_more_fuel; [exact Hout|lia].
Qed.

Lemma fetch_ends_within_reported_pages_witness :
  ∃ out, ∀ fuel, (3 ≤ fuel)%nat →
    fetch_all_feedback iso_parse int_decimal fuel failing_client "FeedbackReceived" 200
      = Some out.
Proof.
  apply (fetch_ends_within_reported_pages iso_parse int_decimal failing_client
           "FeedbackReceived" 200 3).
  - lia.
  - intros p data s total Hdata Hs Hint. unfold failing_client in Hdata.
    cbn [PageNumber] in Hdata.
    repeat case_bool_decide; inversion Hdata; subst data;
      inversion Hs; subst s; vm_compute in Hint; inversion Hint; lia.
Defined.

(** X10: a row is built from seven fields of the entry only: any other
    field of the entry, whatever its value, leaves the row unchanged. *)
Theorem make_row_reads_seven_fields
    (date_parse : string → option timestamp) (fb : feedback)
    (key : string) (value : option string) :
  key ∉ ["CommentText"; "CommentType"; "CommentTime"; "Role"; "ItemID";
         "ItemTitle"; "CommentingUser"] →
  make_row date_parse (<[key := value]> fb) = make_row date_parse fb.
Proof.
  intros Hkey. unfold make_row, py_get.
  rewrite !lookup_insert_ne; [done|intros ->; apply Hkey; set_solver..].
Qed.

Lemma make_row_reads_seven_fields_witness :
  make_row iso_parse (<["FeedbackScore" := Some "1204"]> great_fb)
    = make_row iso_parse great_fb.
Proof.
  apply make_row_reads_seven_fields.
  intros Hin. repeat (apply elem_of_cons in Hin as [Hin|Hin]; [discriminate|]).
  by apply elem_of_nil in Hin.
Defined.

(** X11: an exception that leaves the fetch is either one the client raised
    on some page and that is not a ConnectionError, or the AttributeError,
    TypeError or ValueError of reading a response; the fetch raises
    nothing else, and never a ConnectionError of the client. *)
Theorem fetch_raises_only_what_it_meets
    (date_parse : string → option timestamp) (py_int : string → option Z)
    (client : Trading) (feedback_type : string) (entries_per_page : Z)
    (fuel : nat) (e : exn) :
  fetch_all_feedback date_parse py_int fuel client feedback_type entries_per_page
    = Some (Raise e) →
  (∃ p, (1 ≤ p)%Z ∧ e ≠ ConnectionError
        ∧ client (mkRequest feedback_type entries_per_page p) = Fails e)
  ∨ e = AttributeError ∨ e = TypeError ∨ e = ValueError.
Proof. apply fetch_loop_raises. Qed.

Lemma fetch_raises_only_what_it_meets_witness :
  (∃ p, (1 ≤ p)%Z ∧ ValueError ≠ ConnectionError
        ∧ bad_total_client (mkRequest "FeedbackReceived" 200 p) = Fails ValueError)
  ∨ ValueError = AttributeError ∨ ValueError = TypeError ∨ ValueError = ValueError.
Proof.
  apply (fetch_raises_only_what_it_meets iso_parse int_decimal bad_total_client
           "FeedbackReceived" 200 2).
  vm_compute. reflexivity.
Defined.

(** ** get_trading_client *)

Lemma not_value_true (value : option string) :
  not_value value = true ↔ value = None ∨ value = Some "".
Proof.
  destruct value as [s|]; simpl.
  - rewrite bool_decide_eq_true. split; [intros ->; by right|].
    intros [?|[= ->]]; done.
  - split; [by left|done].
Qed.

(** The comprehension keeps the names whose variable has a false value. *)
Lemma missing_filter (env : environ) :
  missing env = filter (λ name, not_value (env !! name) = true) required_names.
Proof.
  unfold missing, required_names.
  rewrite !filter_cons, !filter_nil. simpl.
  repeat case_decide; done.
Qed.

Lemma elem_of_missing (env : environ) (name : string) :
  name ∈ missing env ↔
    name ∈ required_names ∧ (env !! name = None ∨ env !! name = Some "").
Proof.
  rewrite missing_filter, list_elem_of_filter, not_value_true.
  split; intros [? ?]; by split.
Qed.

Lemma missing_nil (env : environ) :
  missing env = [] ↔
    ∀ name, name ∈ required_names → ∃ v, env !! name = Some v ∧ v ≠ "".
Proof.
  split.
  - intros Hnil name Hname.
    destruct (env !! name) as [v|] eqn:Hv.
    + exists v. split; [done|]. intros ->.
      assert (name ∈ missing env) as Hin by (apply elem_of_missing; auto).
      rewrite Hnil in Hin. by apply elem_of_nil in Hin.
    + assert (name ∈ missing env) as Hin by (apply elem_of_missing; auto).
      rewrite Hnil in Hin. by apply elem_of_nil in Hin.
  - intros Hall. destruct (missing env) as [|name names] eqn:Hmissing; [done|].
    assert (name ∈ missing env) as Hin by (rewrite Hmissing; left).
    apply elem_of_missing in Hin as [Hname Hvalue].
    destruct (Hall name Hname) as (v & Hv & Hne).
    destruct Hvalue; congruence.
Qed.

Lemma get_trading_client_raises (connect : TradingConfig → Trading)
    (env : environ) (e : exn) :
  get_trading_client connect env = Raise e →
  missing env ≠ [] ∧ e = SystemExit (missing_message (missing env)).
Proof.
  unfold get_trading_client. destruct (missing env); [done|].
  by intros [= <-].
Qed.

Lemma get_trading_client_insert (connect : TradingConfig → Trading)
    (env : environ) (key value : string) :
  key ∉ required_names →
  get_trading_client connect (<[key := value]> env) = get_trading_client connect env.
Proof.
  intros Hkey.
  assert (Hlookup : ∀ name, name ∈ required_names →
            <[key := value]> env !! name = env !! name).
  { intros name Hname. apply lookup_insert_ne. by intros ->. }
  unfold get_trading_client, missing.
  rewrite !Hlookup; [done|unfold required_names; by repeat constructor..].
Qed.

(** X12: the function returns a client exactly when the four credential
    variables are all set to non-empty values, and the client is then built
    for api.ebay.com from these four values and no configuration file. *)
Theorem client_needs_all_credentials
    (connect : TradingConfig → Trading) (env : environ) :
  ((∃ client, get_trading_client connect env = Return client)
   ↔ ∀ name, name ∈ required_names → ∃ v, env !! name = Some v ∧ v ≠ "")
  ∧ ((∀ name, name ∈ required_names → ∃ v, env !! name = Some v ∧ v ≠ "") →
     get_trading_client connect env =
       Return (connect {| domain := "api.ebay.com";
                          appid := env !! "EBAY_APP_ID";
                          devid := env !! "EBAY_DEV_ID";
                          certid := env !! "EBAY_CERT_ID";
                          token := env !! "EBAY_TOKEN";
                          config_file := None |})).
Proof.
  rewrite <- missing_nil. unfold get_trading_client.
  destruct (missing env) as [|name names]; split; try done.
  - split; [done|eauto].
  - split; [by intros [client [=]]|done].
Qed.

Lemma client_needs_all_credentials_witness :
  get_trading_client (λ _, one_page_client) full_env = Return one_page_client.
Proof.
  apply (proj2 (client_needs_all_credentials (λ _, one_page_client) full_env)).
  intros name Hname. unfold required_names in Hname.
  repeat (apply elem_of_cons in Hname as [->|Hname]; [by eexists|]).
  by apply elem_of_nil in Hname.
Defined.

(** X13: the names reported as missing are those of the four credential
    variables that are not set or are set to the empty string, in the
    order APP, DEV, CERT, TOKEN; if there is one, the function raises the
    SystemExit whose message lists them, separated by commas. *)
Theorem missing_credentials_are_named
    (connect : TradingConfig → Trading) (env : environ) :
  missing env `sublist_of` required_names
  ∧ (∀ name, name ∈ missing env ↔
       name ∈ required_names ∧ (env !! name = None ∨ env !! name = Some ""))
  ∧ (missing env ≠ [] →
     get_trading_client connect env = Raise (SystemExit (missing_message (missing env)))).
Proof.
  split; [|split].
  - rewrite missing_filter. apply sublist_filter.
  - apply elem_of_missing.
  - unfold get_trading_client. by destruct (missing env).
Qed.

Lemma missing_credentials_are_named_witness :
  get_trading_client (λ _, one_page_client) partial_env
    = Raise (SystemExit (missing_message ["EBAY_CERT_ID"; "EBAY_TOKEN"])).
Proof.
  apply (proj2 (proj2 (missing_credentials_are_named (λ _, one_page_client) partial_env))).
  vm_compute. discriminate.
Defined.

(** ** main *)

Section MainRuns.

Variable date_parse : string → option timestamp.
Variable py_int : string → option Z.
Variable connect : TradingConfig → Trading.

Local Abbreviation run := (main date_parse py_int connect).

(** [main] with an explicit base URL. *)
Lemma main_base_url (env : environ) (url : string) (now : datetime) (fuel : nat) :
  run (<["EBAY_BASE_URL" := url]> env) now fuel =
    match get_trading_client connect env with
    | Raise e => Some (Raise e)
    | Return client =>
        match fetch_all_feedback date_parse py_int fuel client "FeedbackReceived" 200 with
        | None => None
        | Some (Raise e) => Some (Raise e)
        | Some (Return rows) =>
            match rows with
            | [] => Some (Raise NoRowsReturned)
            | _ =>
                match build_ebay_reviews_export rows url with
                | Raise e => Some (Raise e)
                | Return export_df => Some (Return (out_path now, export_df))
                end
            end
        end
    end.
Proof.
  unfold main.
  rewrite get_trading_client_insert.
  - by rewrite lookup_insert_eq.
  - unfold required_names. intros Hin.
    repeat (apply elem_of_cons in Hin as [Hin|Hin]; [discriminate|]).
    by apply elem_of_nil in Hin.
Qed.

End MainRuns.

(** X15: when a credential is missing, main raises the SystemExit that
    names the missing variables, for every client constructor and every
    bound on the fetch, zero turns included: no request is made. *)
Theorem missing_credentials_stop_main
    (date_parse : string → option timestamp) (py_int : string → option Z)
    (connect : TradingConfig → Trading)
    (env : environ) (now : datetime) (fuel : nat) :
  missing env ≠ [] →
  main date_parse py_int connect env now fuel
    = Some (Raise (SystemExit (missing_message (missing env)))).
Proof.
  intros Hmissing. unfold main, get_trading_client.
  by destruct (missing env).
Qed.

Lemma missing_credentials_stop_main_witness :
  main iso_parse int_decimal (λ _, one_page_client) partial_env
    (mkdatetime 2024 3 5 10 0 7) 0
  = Some (Raise (SystemExit (missing_message ["EBAY_CERT_ID"; "EBAY_TOKEN"]))).
Proof.
  apply (missing_credentials_stop_main iso_parse int_decimal (λ _, one_page_client)
           partial_env).
  vm_compute. discriminate.
Defined.

(** X16: when the first request, for page 1 of FeedbackReceived with 200
    entries per page, fails with a transport error or brings no entries,
    main raises the SystemExit "No feedback rows returned from eBay": the
    transform is not called and nothing is written. *)
Theorem no_rows_stop_main
    (date_parse : string → option timestamp) (py_int : string → option Z)
    (connect : TradingConfig → Trading)
    (env : environ) (now : datetime) (fuel : nat) (client : Trading) :
  get_trading_client connect env = Return client →
  client (mkRequest "FeedbackReceived" 200 1) = Fails ConnectionError
  ∨ (∃ data details,
       client (mkRequest "FeedbackReceived" 200 1) = Responds data
       ∧ details_of data = Return details ∧ truthy details = false) →
  (1 ≤ fuel)%nat →
  main date_parse py_int connect env now fuel = Some (Raise NoRowsReturned).
Proof.
  intros Hclient Hfirst Hfuel. unfold main. rewrite Hclient.
  destruct fuel as [|fuel]; [lia|].
  unfold fetch_all_feedback. cbn [fetch_loop]. unfold loop_body.
  destruct Hfirst as [->|(data & details & -> & -> & ->)]; done.
Qed.

Lemma no_rows_stop_main_witness :
  main iso_parse int_decimal (λ _, down_client) full_env (mkdatetime 2024 3 5 10 0 7) 1
    = Some (Raise NoRowsReturned).
Proof.
  apply (no_rows_stop_main iso_parse int_decimal (λ _, down_client) full_env
           (mkdatetime 2024 3 5 10 0 7) 1 down_client).
  - vm_compute. reflexivity.
  - left. reflexivity.
  - lia.
Defined.

(** X17: a SystemExit that leaves main carries the message about missing
    credentials, "No feedback rows returned from eBay" or "No seller
    feedback with comments after filtering", unless the client itself
    raised it; the empty-input exit of the transform is never reached
    from main. *)
Theorem main_exit_messages
    (date_parse : string → option timestamp) (py_int : string → option Z)
    (connect : TradingConfig → Trading)
    (env : environ) (now : datetime) (fuel : nat) (msg : string) :
  main date_parse py_int connect env now fuel = Some (Raise (SystemExit msg)) →
  msg = missing_message (missing env)
  ∨ SystemExit msg = NoRowsReturned
  ∨ SystemExit msg = NoMatchingRowsError
  ∨ ∃ client p,
      get_trading_client connect env = Return client
      ∧ client (mkRequest "FeedbackReceived" 200 p) = Fails (SystemExit msg).
Proof.
  unfold main.
  destruct (get_trading_client connect env) as [client|e] eqn:Hclient.
  - destruct (fetch_all_feedback _ _ _ _ _ _) as [[rows|e]|] eqn:Hfetch; [| |done].
    + destruct rows as [|r rows]; [intros [= <-]; auto|].
      rewrite build_ebay_reviews_export_unfold.
      repeat case_decide; try done.
      intros [= <-]. auto.
    + intros [= ->].
      apply fetch_loop_raises in Hfetch as [(p & _ & _ & Hfail)|[?|[?|?]]]; try done.
      do 3 right. by exists client, p.
  - apply get_trading_client_raises in Hclient as [_ ->].
    intros [= <-]. by left.
Qed.

Lemma main_exit_messages_witness :
  "No seller feedback with comments after filtering" = missing_message (missing full_env)
  ∨ SystemExit "No seller feedback with comments after filtering" = NoRowsReturned
  ∨ SystemExit "No seller feedback with comments after filtering" = NoMatchingRowsError
  ∨ ∃ client p,
      get_trading_client (λ _, no_seller_client) full_env = Return client
      ∧ client (mkRequest "FeedbackReceived" 200 p)
        = Fails (SystemExit "No seller feedback with comments after filtering").
Proof.
  apply (main_exit_messages iso_parse int_decimal (λ _, no_seller_client) full_env
           (mkdatetime 2024 3 5 10 0 7) 1).
  vm_compute. reflexivity.
Defined.

(** X18: leaving EBAY_BASE_URL unset is the same as setting it to
    https://www.ebay.co.uk, and slashes added at the end of the value it
    is set to change nothing. *)
Theorem base_url_default_and_slashes
    (date_parse : string → option timestamp) (py_int : string → option Z)
    (connect : TradingConfig → Trading)
    (env : environ) (url : string) (n : nat) (now : datetime) (fuel : nat) :
  (env !! "EBAY_BASE_URL" = None →
   main date_parse py_int connect env now fuel
     = main date_parse py_int connect
         (<["EBAY_BASE_URL" := "https://www.ebay.co.uk"]> env) now fuel)
  ∧ main date_parse py_int connect (<["EBAY_BASE_URL" := url +:+ slashes n]> env) now fuel
    = main date_parse py_int connect (<["EBAY_BASE_URL" := url]> env) now fuel.
Proof.
  split.
  - intros Hunset. rewrite main_base_url. unfold main. by rewrite Hunset.
  - rewrite !main_base_url.
    destruct (get_trading_client connect env) as [client|e]; [|done].
    destruct (fetch_all_feedback _ _ _ _ _ _) as [[rows|e]|]; [|done..].
    destruct rows as [|r rows]; [done|].
    rewrite !build_ebay_reviews_export_unfold. by rewrite rstrip_slash_slashes.
Qed.

Lemma base_url_default_and_slashes_witness :
  main iso_parse int_decimal (λ _, one_page_client) full_env (mkdatetime 2024 3 5 10 0 7) 1
    = main iso_parse int_decimal (λ _, one_page_client)
        (<["EBAY_BASE_URL" := "https://www.ebay.co.uk"]> full_env)
        (mkdatetime 2024 3 5 10 0 7) 1.
Proof.
  apply (proj1 (base_url_default_and_slashes iso_parse int_decimal (λ _, one_page_client)
                  full_env "" 0 (mkdatetime 2024 3 5 10 0 7) 1)).
  reflexivity.
Defined.

(** ** The output file *)

Lemma digit_inj (a b : nat) : digit a = digit b → a mod 10 = b mod 10.
Proof.
  unfold digit. intros Heq. apply (f_equal nat_of_ascii) in Heq.
  assert (a mod 10 < 10)%nat as Ha by (apply Nat.mod_upper_bound; lia).
  assert (b mod 10 < 10)%nat as Hb by (apply Nat.mod_upper_bound; lia).
  rewrite !nat_ascii_embedding in Heq by lia. lia.
Qed.

Lemma String_inj (c d : ascii) (s t : string) :
  String c s = String d t → c = d ∧ s = t.
Proof. intros Heq. split; congruence. Qed.

Lemma pad2_inj (a b : nat) (s t : string) :
  (a < 100)%nat → (b < 100)%nat → pad2 a +:+ s = pad2 b +:+ t → a = b ∧ s = t.
Proof.
  intros Ha Hb. unfold pad2. rewrite !append_cons, !append_nil.
  intros [H1%digit_inj [H0%digit_inj Hst]%String_inj]%String_inj. split; [|done].
  pose proof (Nat.div_mod_eq a 10). pose proof (Nat.div_mod_eq b 10).
  assert (a / 10 < 10)%nat by (apply Nat.Div0.div_lt_upper_bound; lia).
  assert (b / 10 < 10)%nat by (apply Nat.Div0.div_lt_upper_bound; lia).
  rewrite !Nat.mod_small in H1 by done. lia.
Qed.

Lemma div_10_split (n : nat) : (n / 10 = 10 * (n / 100) + (n mod 100) / 10)%nat.
Proof.
  pose proof (Nat.div_mod_eq n 10). pose proof (Nat.div_mod_eq n 100).
  pose proof (Nat.div_mod_eq (n mod 100) 10).
  assert (n mod 10 < 10)%nat by (apply Nat.mod_upper_bound; lia).
  assert ((n mod 100) mod 10 < 10)%nat by (apply Nat.mod_upper_bound; lia).
  lia.
Qed.

Lemma mod_10_of_mod_100 (n : nat) : (n mod 10 = (n mod 100) mod 10)%nat.
Proof.
  pose proof (Nat.div_mod_eq n 10). pose proof (Nat.div_mod_eq n 100).
  pose proof (Nat.div_mod_eq (n mod 100) 10).
  assert (n mod 10 < 10)%nat by (apply Nat.mod_upper_bound; lia).
  assert ((n mod 100) mod 10 < 10)%nat by (apply Nat.mod_upper_bound; lia).
  lia.
Qed.

Lemma tens_of_mod_100 (n : nat) : ((n / 10) mod 10 = ((n mod 100) / 10) mod 10)%nat.
Proof.
  rewrite (div_10_split n), Nat.add_comm, (Nat.mul_comm 10).
  apply Nat.Div0.mod_add.
Qed.

(** The two low digits of a number are those of its remainder by 100. *)
Lemma pad2_mod_100 (n : nat) : pad2 n = pad2 (n mod 100).
Proof.
  unfold pad2, digit.
  by rewrite <- (mod_10_of_mod_100 n), <- (tens_of_mod_100 n).
Qed.

Lemma pad4_inj (a b : nat) (s t : string) :
  (a < 10 * 1000)%nat → (b < 10 * 1000)%nat → pad4 a +:+ s = pad4 b +:+ t → a = b ∧ s = t.
Proof.
  intros Ha Hb. unfold pad4. rewrite !append_cons.
  intros [H3%digit_inj [H2%digit_inj Hrest]%String_inj]%String_inj.
  assert (a mod 100 < 100)%nat by (apply Nat.mod_upper_bound; lia).
  assert (b mod 100 < 100)%nat by (apply Nat.mod_upper_bound; lia).
  rewrite (pad2_mod_100 a), (pad2_mod_100 b) in Hrest.
  apply pad2_inj in Hrest as [Hlow Hst]; [|done..]. split; [|done].
  pose proof (Nat.div_mod_eq a 100). pose proof (Nat.div_mod_eq b 100).
  pose proof (Nat.div_mod_eq (a / 100) 10). pose proof (Nat.div_mod_eq (b / 100) 10).
  assert (a / 100 / 10 = a / 1000)%nat by (by rewrite Nat.Div0.div_div).
  assert (b / 100 / 10 = b / 1000)%nat by (by rewrite Nat.Div0.div_div).
  assert (a / 1000 < 10)%nat by (apply Nat.Div0.div_lt_upper_bound; lia).
  assert (b / 1000 < 10)%nat by (apply Nat.Div0.div_lt_upper_bound; lia).
  rewrite !Nat.mod_small in H3 by done. lia.
Qed.

Lemma append_inj_l (s t u : string) : s +:+ t = s +:+ u → t = u.
Proof.
  induction s as [|c s IH]; [by rewrite !append_nil|].
  rewrite !append_cons. intros [= Heq]. by apply IH.
Qed.

(** X19: two runs that reach line 229 at different seconds write to
    different files: the path of the spreadsheet determines the UTC
    timestamp it was built from. *)
Theorem out_path_names_the_second (t1 t2 : datetime) :
  four_digit_datetime t1 → four_digit_datetime t2 →
  out_path t1 = out_path t2 → t1 = t2.
Proof.
  intros (Hy1 & Hm1 & Hd1 & Hh1 & Hn1 & Hs1) (Hy2 & Hm2 & Hd2 & Hh2 & Hn2 & Hs2).
  unfold out_path. intros Hpath.
  do 2 apply append_inj_l in Hpath.
  unfold strftime_compact in Hpath. rewrite !string_append_assoc in Hpath.
  apply pad4_inj in Hpath as [Hyear Hpath]; [|lia..].
  apply pad2_inj in Hpath as [Hmonth Hpath]; [|lia..].
  apply pad2_inj in Hpath as [Hday Hpath]; [|lia..].
  rewrite !append_cons, !append_nil in Hpath. apply String_inj in Hpath as [_ Hpath].
  apply pad2_inj in Hpath as [Hhour Hpath]; [|lia..].
  apply pad2_inj in Hpath as [Hminute Hpath]; [|lia..].
  apply pad2_inj in Hpath as [Hsecond _]; [|lia..].
  destruct t1, t2. simpl in *. by subst.
Qed.

Lemma out_path_names_the_second_witness :
  mkdatetime 2024 3 5 10 0 7 = mkdatetime 2024 3 5 10 0 7.
Proof.
  apply out_path_names_the_second.
  - unfold four_digit_datetime. simpl. lia.
  - unfold four_digit_datetime. simpl. lia.
  - reflexivity.
Defined.
